(** * Admin dashboard of the multi-agent lead workflow: model and properties

    A shallow embedding of the React front end (pages Leads, Call Logs,
    Data Entry Logs, Dashboard, Settings and the Layout shell).  Each
    component becomes a state record, an event type and a total step
    function returning the next state and the effects the handlers
    perform (API requests, notifications, timers).  The back end is the
    environment: its answers enter as events. *)

From stdpp Require Import gmap strings list.
From Stdlib Require Import ZArith Ascii String DecimalString.
From Stdlib Require DecimalPos.

Open Scope string_scope.
Open Scope Z_scope.

(* ===================================================================== *)
(** ** JavaScript values and the built-ins the handlers use *)
(* ===================================================================== *)

Module JS.

(** The scalar JSON values that reach the handlers.  A number is an
    integer-valued double, written as the integer it holds: the
    arithmetic below is the exact one, which is the arithmetic of
    doubles as long as the magnitudes stay within 2^53 (see
    [max_exact]); the properties that compute with numbers say so in
    a hypothesis.  Objects and arrays are modelled where they occur
    (lead rows, the settings object, an error's detail). *)
Inductive value :=
| Undefined
| Null
| Bool (b : bool)
| Int (z : Z)
| Str (s : string).

(** Integers up to this magnitude are doubles, and [parseInt], [/]
    followed by [Math.floor], [%], [-] and [toString] are exact on
    them. *)
Definition max_exact : Z := 9007199254740992.   (* 2^53 *)

(** ToBoolean. *)
Definition truthy (v : value) : bool :=
  match v with
  | Undefined | Null => false
  | Bool b => b
  | Int z => negb (z =? 0)
  | Str s => negb (s =? "")%string
  end.

(** [Number.prototype.toString] on an integer. *)
Definition toString (z : Z) : string :=
  NilZero.string_of_int (Z.to_int z).

(** What a template literal interpolates for [${v}]. *)
Definition render (v : value) : string :=
  match v with
  | Undefined => "undefined"
  | Null => "null"
  | Bool true => "true"
  | Bool false => "false"
  | Int z => toString z
  | Str s => s
  end.

Fixpoint repeat_char (n : nat) (c : ascii) : string :=
  match n with
  | O => ""
  | S n' => String c (repeat_char n' c)
  end.

(** [s.padStart(targetLength, c)] for a one-character pad string. *)
Definition padStart (targetLength : nat) (c : ascii) (s : string) : string :=
  repeat_char (targetLength - String.length s) c ++ s.

(** [parseInt(s, 10)]: leading white space, an optional sign, then the
    longest run of decimal digits; [None] is NaN.  The result is the
    integer the digits denote, which is the number [parseInt] returns
    when its magnitude is at most [max_exact] (beyond, the built-in
    rounds, and gives an infinity past the range of doubles). *)
Definition is_space (c : ascii) : bool :=
  let n := nat_of_ascii c in
  ((n =? 32) || ((9 <=? n) && (n <=? 13)))%nat.

Fixpoint trim_start (s : string) : string :=
  match s with
  | String c s' => if is_space c then trim_start s' else s
  | EmptyString => s
  end.

Definition digit_value (c : ascii) : option Z :=
  let n := nat_of_ascii c in
  if ((48 <=? n) && (n <=? 57))%nat then Some (Z.of_nat n - 48) else None.

Fixpoint digits (acc : option Z) (s : string) : option Z :=
  match s with
  | String c s' =>
      match digit_value c with
      | Some d => digits (Some (10 * default 0 acc + d)) s'
      | None => acc
      end
  | EmptyString => acc
  end.

Definition parseInt (s : string) : option Z :=
  match trim_start s with
  | String "-"%char s' => Z.opp <$> digits None s'
  | String "+"%char s' => digits None s'
  | s' => digits None s'
  end.

(** [parseInt(s, 10) || 0]: NaN and 0 both give 0. *)
Definition parseInt_or_0 (s : string) : Z := default 0 (parseInt s).

(** Decimal digit [d] (0..9) as a character. *)
Definition digit_char (d : Z) : ascii := ascii_of_nat (48 + Z.to_nat d).

(** [s.toUpperCase()] on ASCII text: the letters a to z are moved to
    A to Z, every other character is kept.  (Outside ASCII the
    built-in follows the Unicode case mapping, which can change the
    length; the properties below are stated for ASCII text.) *)
Definition is_ascii (s : string) : bool :=
  forallb (fun c => (nat_of_ascii c <? 128)%nat) (list_ascii_of_string s).

Definition upper_char (c : ascii) : ascii :=
  let n := nat_of_ascii c in
  if ((97 <=? n) && (n <=? 122))%nat then ascii_of_nat (n - 32) else c.

Fixpoint toUpperCase (s : string) : string :=
  match s with
  | String c s' => String (upper_char c) (toUpperCase s')
  | EmptyString => EmptyString
  end.

(** [s.replace(c, d)] for one-character strings [c] and [d]: only the
    first occurrence is replaced. *)
Fixpoint replace_first (c d : ascii) (s : string) : string :=
  match s with
  | String x s' =>
      if Ascii.eqb x c then String d s' else String x (replace_first c d s')
  | EmptyString => EmptyString
  end.

(** Number of occurrences of a character. *)
Fixpoint count_char (c : ascii) (s : string) : nat :=
  match s with
  | String x s' => ((if Ascii.eqb x c then 1 else 0) + count_char c s')%nat
  | EmptyString => 0%nat
  end.

(** A JSON value that may be structured: what [response.data.detail]
    of a rejected request can hold (FastAPI sends a string for an
    [HTTPException] and an array of objects for a validation error). *)
#[warnings="-register-all"]
Inductive json :=
| Scalar (v : value)
| Object (fields : list (string * json))
| Array (items : list json).

(** ToBoolean: every object and every array is truthy. *)
Definition json_truthy (j : json) : bool :=
  match j with
  | Scalar v => truthy v
  | Object _ | Array _ => true
  end.

(** What a template literal interpolates for [${j}]: an object gives
    [[object Object]]; an array joins the texts of its items with
    commas, [null] and [undefined] items giving the empty text. *)
Fixpoint json_render (j : json) : string :=
  match j with
  | Scalar v => render v
  | Object _ => "[object Object]"
  | Array items =>
      (fix join (l : list json) : string :=
         let item x :=
           match x with
           | Scalar Undefined | Scalar Null => ""
           | _ => json_render x
           end in
         match l with
         | [] => ""
         | [x] => item x
         | x :: l' => item x ++ "," ++ join l'
         end) items
  end.

End JS.

(* ===================================================================== *)
(** ** Strings: suffixes of URLs and substrings of messages *)
(* ===================================================================== *)

Module Text.

(** [needle] occurs in [hay]. *)
Definition occurs_in (needle hay : string) : Prop :=
  exists pre post, hay = pre ++ needle ++ post.

Definition ends_with (suffix s : string) : bool :=
  String.prefix (String.rev suffix) (String.rev s).

(** Substring search: [needle] starts at some position of [hay]. *)
Fixpoint contains (needle hay : string) : bool :=
  String.prefix needle hay
  || match hay with
     | String _ hay' => contains needle hay'
     | EmptyString => false
     end.

End Text.

(* ===================================================================== *)
(** ** The HTTP client and the effects a handler can perform *)
(* ===================================================================== *)

Module Api.

Inductive method := GET | POST.

Inductive body :=
| NoBody
| Multipart (file : string)                 (* FormData, field 'file' *)
| JsonForm (leadData : gmap string string)  (* the Add Lead form *)
| JsonStatus (status : string)              (* { status } *)
| JsonObject (o : gmap string JS.value).    (* the call settings *)

Record request := { meth : method; url : string; payload : body }.

(** [api.get(url)] and [api.post(url, data)]. *)
Definition get (u : string) : request :=
  {| meth := GET; url := u; payload := NoBody |}.
Definition post (u : string) (b : body) : request :=
  {| meth := POST; url := u; payload := b |}.

(** The part of a fulfilled response the handlers read:
    [response.data.message] and [response.data.call_successful]. *)
Record response := { message : string; call_successful : JS.value }.

(** The part of a rejection the handlers read:
    [error.response?.data?.detail] ([Scalar Undefined] when a link of
    the chain is missing) and [error.message]. *)
Record error := { detail : JS.json; error_message : string }.

Inductive result :=
| Fulfilled (r : response)
| Rejected (e : error).

(** [${error.response?.data?.detail || error.message}]. *)
Definition error_text (e : error) : string :=
  if JS.json_truthy (detail e) then JS.json_render (detail e)
  else error_message e.

(** A notification text reports the failure: it contains the server's
    detail when there is one (a truthy [detail]), the error's message
    otherwise. *)
Definition reports (e : error) (text : string) : Prop :=
  Text.occurs_in
    (if JS.json_truthy (detail e) then JS.json_render (detail e)
     else error_message e)
    text.

End Api.

Module Fx.

Inductive severity := Success | Error.

Inductive effect :=
| Http (r : Api.request)
| Toast (sev : severity) (text : string)      (* toast.success / toast.error *)
| InvalidateQueries (queryKey : string)
| SetTimeoutMarkConfirmed (leadId : JS.value) (ms : Z)
    (* setTimeout(() => markConfirmedMutation.mutate(leadId), ms) *)
| Console (text : string)
| OpenWindow (href : string)                  (* window.open / link.click *)
| Navigate (path : string)
| Uncaught (what : string).                   (* exception out of a handler *)

(** The requests among the effects, in order. *)
Definition requests (effs : list effect) : list Api.request :=
  flat_map (fun e => match e with Http r => [r] | _ => [] end) effs.

(** A polling query: key, endpoint and [refetchInterval] (ms). *)
Record query := { queryKey : string; endpoint : string; refetchInterval : Z }.

(** No exception escaped a handler. *)
Definition no_crash (effs : list effect) : Prop :=
  forall what, ~ In (Uncaught what) effs.

End Fx.

(* ===================================================================== *)
(** ** Call Logs page (second component of frontend/src/pages/Dashboard.js) *)
(* ===================================================================== *)

Module CallLogs.

(** The [call_duration] cell value: a JSON number of seconds, [null],
    or absent. *)
Inductive seconds_arg :=
| SecUndefined
| SecNull
| SecInt (seconds : Z).

(** [!seconds]. *)
Definition falsy (a : seconds_arg) : bool :=
  match a with
  | SecUndefined | SecNull => true
  | SecInt s => s =? 0
  end.

(** [formatDuration]:
<<
    if (!seconds) return 'N/A';
    const mins = Math.floor(seconds / 60);
    const secs = seconds % 60;
    return `${mins}:${secs.toString().padStart(2, '0')}`;
>>
    [Math.floor] of the quotient is [Z.div] and [%], which truncates
    towards zero, is [Z.rem], for a number of seconds that is an
    integer of magnitude at most [JS.max_exact]. *)
Definition formatDuration (a : seconds_arg) : string :=
  if falsy a then "N/A"
  else
    match a with
    | SecInt seconds =>
        let mins := seconds / 60 in
        let secs := Z.rem seconds 60 in
        JS.toString mins ++ ":" ++ JS.padStart 2 "0"%char (JS.toString secs)
    | _ => "N/A"
    end.

(** Two decimal digits. *)
Definition two_digits (r : Z) : string :=
  String (JS.digit_char (r / 10)) (String (JS.digit_char (r mod 10)) "").

Definition callLogsQuery : Fx.query :=
  {| Fx.queryKey := "callLogs"; Fx.endpoint := "/call-logs/";
     Fx.refetchInterval := 10000 |}.

(** The fields of a row that a handler or a cell reads. *)
Record row := {
  id : JS.value;
  call_duration : seconds_arg;
  recording_url : JS.value;
}.

Definition state := option (list row).

(** The two buttons of the Recording cell, shown when
    [recording_url] is truthy. *)
Inductive action :=
| ClickPlay (r : row)
| ClickDownload (r : row).

Inductive event :=
| RefetchTick
| LogsData (data : list row)
| User (a : action).

Definition step (s : state) (ev : event) : state * list Fx.effect :=
  match ev with
  | RefetchTick => (s, [Fx.Http (Api.get (Fx.endpoint callLogsQuery))])
  | LogsData data => (Some data, [])
  | User (ClickPlay r) | User (ClickDownload r) =>
      if JS.truthy (recording_url r)
      then (s, [Fx.OpenWindow (JS.render (recording_url r))])
      else (s, [])
  end.

(** [callStatusColors]. *)
Definition callStatusColors : list (string * string) :=
  [ ("initiated", "info"); ("ringing", "warning"); ("answered", "success");
    ("completed", "success"); ("failed", "error"); ("no-answer", "warning");
    ("busy", "warning") ].

(** The label of the Status chip:
    [params.value?.toUpperCase() || 'UNKNOWN'], the value being a string,
    [null] or absent. *)
Definition status_label (value : option string) : string :=
  match value with
  | Some v =>
      let upper := JS.toUpperCase v in
      if (upper =? "")%string then "UNKNOWN" else upper
  | None => "UNKNOWN"
  end.

End CallLogs.

(* ===================================================================== *)
(** ** Leads page with automatic status progression (unnamed/part_002) *)
(* ===================================================================== *)

Module Leads.
Import Fx.

(** A lead row: the fields that the component's logic reads, and the
    remaining ones (names, phone, address, time stamps), which only
    the grid displays. *)
Record lead := {
  id : JS.value;
  status : string;
  call_completed_at : JS.value;
  status_updated_after_call : JS.value;
  call_successful : JS.value;
  rest : gmap string JS.value;
}.

(** [statusLabels], in source order ([Object.entries] keeps it). *)
Definition statusLabels : list (string * string) :=
  [ ("pending", "Pending");
    ("calling", "Calling");
    ("confirmed", "Confirmed");
    ("call_failed", "Call Failed");
    ("not_interested", "Not Interested");
    ("entry_in_progress", "Entry in Progress");
    ("entered", "Entered");
    ("entry_failed", "Entry Failed");
    ("no_answer", "No Answer");
    ("callback_requested", "Callback Requested") ].

(** The [value]s of the [MenuItem]s of the status [Select]:
    [Object.entries(statusLabels).map(([value, label]) => ...)]. *)
Definition status_options : list string := map fst statusLabels.

(** [useQuery('leads', () => api.get('/leads/'), { refetchInterval: 3000 })]. *)
Definition leadsQuery : query :=
  {| queryKey := "leads"; endpoint := "/leads/"; refetchInterval := 3000 |}.

(** One invocation [m.mutate(variables)] of one of the seven mutations. *)
Inductive call :=
| Upload (file : string)
| AddLead (leadData : gmap string string)
| MakeCall (leadId : JS.value)
| UpdateStatus (leadId : JS.value) (status : string)
| MarkConfirmed (leadId : JS.value)
| RetryCall (leadId : JS.value)
| RetryEntry (leadId : JS.value).

Inductive mutation :=
| uploadMutation | addLeadMutation | makeCallMutation | updateStatusMutation
| markConfirmedMutation | retryCallMutation | retryEntryMutation.

Definition mutation_of (c : call) : mutation :=
  match c with
  | Upload _ => uploadMutation
  | AddLead _ => addLeadMutation
  | MakeCall _ => makeCallMutation
  | UpdateStatus _ _ => updateStatusMutation
  | MarkConfirmed _ => markConfirmedMutation
  | RetryCall _ => retryCallMutation
  | RetryEntry _ => retryEntryMutation
  end.

(** The mutation functions (first argument of each [useMutation]). *)
Definition mutationFn (c : call) : Api.request :=
  match c with
  | Upload file => Api.post "/leads/import-csv/" (Api.Multipart file)
  | AddLead leadData => Api.post "/leads/" (Api.JsonForm leadData)
  | MakeCall leadId =>
      Api.post ("/leads/" ++ JS.render leadId ++ "/make-call") Api.NoBody
  | UpdateStatus leadId status =>
      Api.post ("/leads/" ++ JS.render leadId ++ "/status")
               (Api.JsonStatus status)
  | MarkConfirmed leadId =>
      Api.post ("/leads/" ++ JS.render leadId ++ "/mark-confirmed") Api.NoBody
  | RetryCall leadId =>
      Api.post ("/leads/" ++ JS.render leadId ++ "/retry-call") Api.NoBody
  | RetryEntry leadId =>
      Api.post ("/leads/" ++ JS.render leadId ++ "/retry-entry") Api.NoBody
  end.

#[global] Instance value_eq_dec : EqDecision JS.value.
Proof. solve_decision. Defined.
#[global] Instance lead_eq_dec : EqDecision lead.
Proof. solve_decision. Defined.
#[global] Instance call_eq_dec : EqDecision call.
Proof. solve_decision. Defined.
#[global] Instance mutation_eq_dec : EqDecision mutation.
Proof. solve_decision. Defined.

Definition emptyLead : gmap string string :=
  list_to_map
    [ ("first_name", ""); ("last_name", ""); ("email", ""); ("phone", "");
      ("address", ""); ("city", ""); ("state", ""); ("zip_code", "") ].

(** The [useState] cells, the query data, and what is pending in the
    environment: the mutations issued and not yet settled, and the
    [setTimeout] callbacks not yet run. *)
Record state := {
  selectedFile : option string;
  uploadDialogOpen : bool;
  addDialogOpen : bool;
  statusUpdateDialogOpen : bool;
  selectedStatus : string;
  newLead : gmap string string;
  actionMenuAnchor : bool;            (* an anchor element, or null *)
  selectedLead : option lead;
  leads : option (list lead);         (* undefined before the first answer *)
  inflight : list call;
  timers : list JS.value;
}.

Definition initial : state :=
  {| selectedFile := None; uploadDialogOpen := false;
     addDialogOpen := false; statusUpdateDialogOpen := false;
     selectedStatus := ""; newLead := emptyLead;
     actionMenuAnchor := false; selectedLead := None; leads := None;
     inflight := []; timers := [] |}.

Definition setSelectedFile v (s : state) : state :=
  {| selectedFile := v; uploadDialogOpen := uploadDialogOpen s;
     addDialogOpen := addDialogOpen s;
     statusUpdateDialogOpen := statusUpdateDialogOpen s;
     selectedStatus := selectedStatus s; newLead := newLead s;
     actionMenuAnchor := actionMenuAnchor s; selectedLead := selectedLead s;
     leads := leads s; inflight := inflight s; timers := timers s |}.
Definition setUploadDialogOpen v (s : state) : state :=
  {| selectedFile := selectedFile s; uploadDialogOpen := v;
     addDialogOpen := addDialogOpen s;
     statusUpdateDialogOpen := statusUpdateDialogOpen s;
     selectedStatus := selectedStatus s; newLead := newLead s;
     actionMenuAnchor := actionMenuAnchor s; selectedLead := selectedLead s;
     leads := leads s; inflight := inflight s; timers := timers s |}.
Definition setAddDialogOpen v (s : state) : state :=
  {| selectedFile := selectedFile s; uploadDialogOpen := uploadDialogOpen s;
     addDialogOpen := v;
     statusUpdateDialogOpen := statusUpdateDialogOpen s;
     selectedStatus := selectedStatus s; newLead := newLead s;
     actionMenuAnchor := actionMenuAnchor s; selectedLead := selectedLead s;
     leads := leads s; inflight := inflight s; timers := timers s |}.
Definition setStatusUpdateDialogOpen v (s : state) : state :=
  {| selectedFile := selectedFile s; uploadDialogOpen := uploadDialogOpen s;
     addDialogOpen := addDialogOpen s;
     statusUpdateDialogOpen := v;
     selectedStatus := selectedStatus s; newLead := newLead s;
     actionMenuAnchor := actionMenuAnchor s; selectedLead := selectedLead s;
     leads := leads s; inflight := inflight s; timers := timers s |}.
Definition setSelectedStatus v (s : state) : state :=
  {| selectedFile := selectedFile s; uploadDialogOpen := uploadDialogOpen s;
     addDialogOpen := addDialogOpen s;
     statusUpdateDialogOpen := statusUpdateDialogOpen s;
     selectedStatus := v; newLead := newLead s;
     actionMenuAnchor := actionMenuAnchor s; selectedLead := selectedLead s;
     leads := leads s; inflight := inflight s; timers := timers s |}.
Definition setNewLead v (s : state) : state :=
  {| selectedFile := selectedFile s; uploadDialogOpen := uploadDialogOpen s;
     addDialogOpen := addDialogOpen s;
     statusUpdateDialogOpen := statusUpdateDialogOpen s;
     selectedStatus := selectedStatus s; newLead := v;
     actionMenuAnchor := actionMenuAnchor s; selectedLead := selectedLead s;
     leads := leads s; inflight := inflight s; timers := timers s |}.
Definition setActionMenuAnchor v (s : state) : state :=
  {| selectedFile := selectedFile s; uploadDialogOpen := uploadDialogOpen s;
     addDialogOpen := addDialogOpen s;
     statusUpdateDialogOpen := statusUpdateDialogOpen s;
     selectedStatus := selectedStatus s; newLead := newLead s;
     actionMenuAnchor := v; selectedLead := selectedLead s;
     leads := leads s; inflight := inflight s; timers := timers s |}.
Definition setSelectedLead v (s : state) : state :=
  {| selectedFile := selectedFile s; uploadDialogOpen := uploadDialogOpen s;
     addDialogOpen := addDialogOpen s;
     statusUpdateDialogOpen := statusUpdateDialogOpen s;
     selectedStatus := selectedStatus s; newLead := newLead s;
     actionMenuAnchor := actionMenuAnchor s; selectedLead := v;
     leads := leads s; inflight := inflight s; timers := timers s |}.
Definition setLeads v (s : state) : state :=
  {| selectedFile := selectedFile s; uploadDialogOpen := uploadDialogOpen s;
     addDialogOpen := addDialogOpen s;
     statusUpdateDialogOpen := statusUpdateDialogOpen s;
     selectedStatus := selectedStatus s; newLead := newLead s;
     actionMenuAnchor := actionMenuAnchor s; selectedLead := selectedLead s;
     leads := v; inflight := inflight s; timers := timers s |}.
Definition setInflight v (s : state) : state :=
  {| selectedFile := selectedFile s; uploadDialogOpen := uploadDialogOpen s;
     addDialogOpen := addDialogOpen s;
     statusUpdateDialogOpen := statusUpdateDialogOpen s;
     selectedStatus := selectedStatus s; newLead := newLead s;
     actionMenuAnchor := actionMenuAnchor s; selectedLead := selectedLead s;
     leads := leads s; inflight := v; timers := timers s |}.
Definition setTimers v (s : state) : state :=
  {| selectedFile := selectedFile s; uploadDialogOpen := uploadDialogOpen s;
     addDialogOpen := addDialogOpen s;
     statusUpdateDialogOpen := statusUpdateDialogOpen s;
     selectedStatus := selectedStatus s; newLead := newLead s;
     actionMenuAnchor := actionMenuAnchor s; selectedLead := selectedLead s;
     leads := leads s; inflight := inflight s; timers := v |}.

(** [m.isLoading]: an invocation of [m] has not settled.  (The flag
    of react-query follows the latest [mutate] of [m]; the two agree
    while at most one invocation of [m] is pending, as is the case of
    the six mutations that only a click starts.) *)
Definition isLoading (m : mutation) (s : state) : bool :=
  existsb (fun c => bool_decide (mutation_of c = m)) (inflight s).

(** *** Handlers: state passing with an effect log *)

Definition handler := state -> state * list effect.

Definition skip : handler := fun s => (s, []).
Definition emit (e : effect) : handler := fun s => (s, [e]).
Definition modify (f : state -> state) : handler := fun s => (f s, []).
Definition andThen (h k : handler) : handler :=
  fun s => let '(s1, e1) := h s in
           let '(s2, e2) := k s1 in (s2, (e1 ++ e2)%list).
Infix ">>" := andThen (at level 61, left associativity).

(** [l.forEach(f)]. *)
Fixpoint forEach {A} (f : A -> handler) (l : list A) : handler :=
  match l with
  | [] => skip
  | x :: l' => f x >> forEach f l'
  end.

Fixpoint remove_first {A} `{EqDecision A} (x : A) (l : list A) : list A :=
  match l with
  | [] => []
  | y :: l' => if decide (x = y) then l' else y :: remove_first x l'
  end.

(** [m.mutate(variables)]: the mutation function runs, the request
    leaves, and the invocation is pending. *)
Definition mutate (c : call) : handler :=
  modify (fun s => setInflight (c :: inflight s) s)
  >> emit (Http (mutationFn c)).

Definition handleFileUpload : handler :=
  fun s => match selectedFile s with
           | Some file => mutate (Upload file) s
           | None => skip s
           end.

Definition handleAddLead : handler :=
  fun s => mutate (AddLead (newLead s)) s.

Definition handleActionClick (row : lead) : handler :=
  modify (setActionMenuAnchor true) >> modify (setSelectedLead (Some row)).

Definition handleActionClose : handler :=
  modify (setActionMenuAnchor false) >> modify (setSelectedLead None).

Definition handleStatusUpdate : handler :=
  fun s =>
    (emit (Console "Updating status...")
     >> emit (Console "Selected lead:")
     >> emit (Console "Selected status:")
     >> match selectedLead s with
        | Some l =>
            if negb (selectedStatus s =? "")%string
            then emit (Console "Sending update data:")
                 >> mutate (UpdateStatus (id l) (selectedStatus s))
            else emit (Console "Missing required data for status update")
        | None => emit (Console "Missing required data for status update")
        end) s.

Definition openStatusUpdateDialog : handler :=
  fun s =>
    (modify (setSelectedStatus
               (match selectedLead s with Some l => status l | None => "" end))
     >> modify (setStatusUpdateDialogOpen true)
     >> modify (setActionMenuAnchor false)) s.

(** [selectedLead.id] in a menu handler: throws on [null]. *)
Definition with_selectedLead (k : lead -> handler) : handler :=
  fun s => match selectedLead s with
           | Some l => k l s
           | None => emit (Uncaught "TypeError") s
           end.

(** The filter of the auto-update effect. *)
Definition needsUpdate (l : lead) : bool :=
  (status l =? "calling")%string
  && JS.truthy (call_completed_at l)
  && negb (JS.truthy (status_updated_after_call l)).

(** The effect with dependency [[leads]]:
<<
    if (leads) {
      const leadsNeedingUpdate = leads.filter(lead => ...);
      if (leadsNeedingUpdate.length > 0)
        leadsNeedingUpdate.forEach(lead => {
          if (lead.call_successful) markConfirmedMutation.mutate(lead.id); });
    }
>> *)
Definition autoUpdateEffect : handler :=
  fun s =>
    match leads s with
    | Some ls =>
        let leadsNeedingUpdate := List.filter needsUpdate ls in
        if (0 <? List.length leadsNeedingUpdate)%nat
        then forEach
               (fun lead =>
                  if JS.truthy (call_successful lead)
                  then mutate (MarkConfirmed (id lead)) else skip)
               leadsNeedingUpdate s
        else skip s
    | None => skip s
    end.

Definition onSuccess (c : call) (response : Api.response) : handler :=
  match c with
  | Upload _ =>
      emit (Toast Success (Api.message response))
      >> modify (setUploadDialogOpen false)
      >> modify (setSelectedFile None)
      >> emit (InvalidateQueries "leads")
  | AddLead _ =>
      emit (Toast Success "Lead added successfully")
      >> modify (setAddDialogOpen false)
      >> modify (setNewLead emptyLead)
      >> emit (InvalidateQueries "leads")
  | MakeCall leadId =>
      emit (Toast Success "Call initiated successfully")
      >> emit (InvalidateQueries "leads")
      >> (if JS.truthy (Api.call_successful response)
          then modify (fun s => setTimers (timers s ++ [leadId])%list s)
               >> emit (SetTimeoutMarkConfirmed leadId 2000)
          else skip)
  | UpdateStatus _ _ =>
      emit (Toast Success "Status updated successfully")
      >> modify (setStatusUpdateDialogOpen false)
      >> emit (InvalidateQueries "leads")
  | MarkConfirmed _ =>
      emit (Toast Success "Lead confirmed successfully")
      >> emit (InvalidateQueries "leads")
  | RetryCall _ =>
      emit (Toast Success "Call retry initiated")
      >> emit (InvalidateQueries "leads")
  | RetryEntry _ =>
      emit (Toast Success "Data entry retry initiated")
      >> emit (InvalidateQueries "leads")
  end.

Definition error_prefix (m : mutation) : string :=
  match m with
  | uploadMutation => "Upload failed: "
  | addLeadMutation => "Failed to add lead: "
  | makeCallMutation => "Failed to make call: "
  | updateStatusMutation => "Failed to update status: "
  | markConfirmedMutation => "Failed to mark confirmed: "
  | retryCallMutation => "Failed to retry call: "
  | retryEntryMutation => "Failed to retry entry: "
  end.

Definition onError (c : call) (error : Api.error) : handler :=
  emit (Toast Error (error_prefix (mutation_of c) ++ Api.error_text error)).

Definition settle (c : call) (r : Api.result) : handler :=
  modify (fun s => setInflight (remove_first c (inflight s)) s)
  >> match r with
     | Api.Fulfilled response => onSuccess c response
     | Api.Rejected error => onError c error
     end.

(** *** What the operator can do *)

Inductive action :=
| ClickImportCsv                       (* opens the upload dialog *)
| CloseUploadDialog                    (* Cancel, or onClose *)
| ChooseFile (file : option string)    (* e.target.files[0] *)
| ClickUpload
| ClickAddLead                         (* opens the add dialog *)
| CloseAddDialog
| EditNewLead (field value : string)
| ClickAddLeadSubmit
| ClickRowActions (row : lead)         (* the three-dots button of a row *)
| CloseActionMenu
| ClickMakeCall
| ClickRetryCall
| ClickRetryEntry
| ClickMarkConfirmed
| ClickUpdateStatus                    (* opens the status dialog *)
| ChooseStatus (value : string)
| ClickUpdate
| CloseStatusDialog.

(** Is the control on screen?  Dialog content needs its dialog open,
    menu items need the menu open ([Boolean(actionMenuAnchor)]), a
    row button needs its row in the grid ([rows={leads || []}]), and
    the [Select] only offers its options. *)
Definition visible (s : state) (a : action) : bool :=
  match a with
  | ClickImportCsv | ClickAddLead => true
  | CloseUploadDialog | ChooseFile _ | ClickUpload => uploadDialogOpen s
  | CloseAddDialog | ClickAddLeadSubmit => addDialogOpen s
  | EditNewLead field _ =>
      addDialogOpen s && bool_decide (is_Some (emptyLead !! field))
  | ClickRowActions row => bool_decide (row ∈ default [] (leads s))
  | CloseActionMenu | ClickMakeCall | ClickRetryCall | ClickRetryEntry
  | ClickMarkConfirmed | ClickUpdateStatus => actionMenuAnchor s
  | ChooseStatus value =>
      statusUpdateDialogOpen s && bool_decide (value ∈ status_options)
  | ClickUpdate | CloseStatusDialog => statusUpdateDialogOpen s
  end.

(** The [disabled] props, as written. *)
Definition disabled (s : state) (a : action) : bool :=
  match a with
  | ClickUpload =>
      negb (bool_decide (is_Some (selectedFile s)))
      || isLoading uploadMutation s
  | ClickAddLeadSubmit => isLoading addLeadMutation s
  | ClickUpdate =>
      isLoading updateStatusMutation s || (selectedStatus s =? "")%string
  | ClickMakeCall =>
      isLoading makeCallMutation s
      || match selectedLead s with
         | Some l => (status l =? "calling")%string
         | None => false
         end
  | ClickRetryCall => isLoading retryCallMutation s
  | ClickRetryEntry => isLoading retryEntryMutation s
  | ClickMarkConfirmed => isLoading markConfirmedMutation s
  | _ => false
  end.

Definition enabled (s : state) (a : action) : bool :=
  visible s a && negb (disabled s a).

Definition on_action (a : action) : handler :=
  match a with
  | ClickImportCsv => modify (setUploadDialogOpen true)
  | CloseUploadDialog => modify (setUploadDialogOpen false)
  | ChooseFile file => modify (setSelectedFile file)
  | ClickUpload => handleFileUpload
  | ClickAddLead => modify (setAddDialogOpen true)
  | CloseAddDialog => modify (setAddDialogOpen false)
  | EditNewLead field value =>
      modify (fun s => setNewLead (<[field := value]> (newLead s)) s)
  | ClickAddLeadSubmit => handleAddLead
  | ClickRowActions row => handleActionClick row
  | CloseActionMenu => handleActionClose
  | ClickMakeCall =>
      with_selectedLead (fun l => mutate (MakeCall (id l)) >> handleActionClose)
  | ClickRetryCall =>
      with_selectedLead (fun l => mutate (RetryCall (id l)) >> handleActionClose)
  | ClickRetryEntry =>
      with_selectedLead (fun l => mutate (RetryEntry (id l)) >> handleActionClose)
  | ClickMarkConfirmed =>
      with_selectedLead
        (fun l => mutate (MarkConfirmed (id l)) >> handleActionClose)
  | ClickUpdateStatus => openStatusUpdateDialog
  | ChooseStatus value => modify (setSelectedStatus value)
  | ClickUpdate => handleStatusUpdate
  | CloseStatusDialog => modify (setStatusUpdateDialogOpen false)
  end.

(** *** Events and the step function *)

Inductive event :=
| RefetchTick                       (* the refetch interval elapsed *)
| LeadsData (data : list lead)      (* the query answered with [data] *)
| User (a : action)
| Settled (c : call) (r : Api.result)
| TimerFired (leadId : JS.value).


(** An answer equal to the data already held leaves [leads] the same
    object (react-query shares the structure of equal results), so
    the effect with dependency [[leads]] runs only for an answer that
    differs. *)
Definition step (s : state) (ev : event) : state * list effect :=
  match ev with
  | RefetchTick => emit (Http (Api.get (endpoint leadsQuery))) s
  | LeadsData data =>
      if bool_decide (leads s = Some data) then skip s
      else (modify (setLeads (Some data)) >> autoUpdateEffect) s
  | User a => if enabled s a then on_action a s else skip s
  | Settled c r =>
      if bool_decide (c ∈ inflight s) then settle c r s else skip s
  | TimerFired leadId =>
      if bool_decide (leadId ∈ timers s)
      then (modify (fun s => setTimers (remove_first leadId (timers s)) s)
            >> mutate (MarkConfirmed leadId)) s
      else skip s
  end.

(** A run from [s]: the final state and the log of effects, each with
    the event that caused it. *)
Fixpoint run (s : state) (evs : list event) : state * list (event * effect) :=
  match evs with
  | [] => (s, [])
  | ev :: evs' =>
      let '(s1, effs) := step s ev in
      let '(s2, log) := run s1 evs' in
      (s2, (map (pair ev) effs ++ log)%list)
  end.

(** The mutations that handling [ev] in [s] invokes, in order (shown
    below to be exactly the POST requests [step] issues). *)
Definition selected_call (s : state) (mk : JS.value -> call) : list call :=
  match selectedLead s with
  | Some l => [mk (id l)]
  | None => []
  end.

Definition calls_of_action (s : state) (a : action) : list call :=
  match a with
  | ClickUpload =>
      match selectedFile s with Some file => [Upload file] | None => [] end
  | ClickAddLeadSubmit => [AddLead (newLead s)]
  | ClickMakeCall => selected_call s MakeCall
  | ClickRetryCall => selected_call s RetryCall
  | ClickRetryEntry => selected_call s RetryEntry
  | ClickMarkConfirmed => selected_call s MarkConfirmed
  | ClickUpdate =>
      if negb (selectedStatus s =? "")%string
      then selected_call s (fun leadId => UpdateStatus leadId (selectedStatus s))
      else []
  | _ => []
  end.

Definition calls_issued (s : state) (ev : event) : list call :=
  match ev with
  | RefetchTick | Settled _ _ => []
  | LeadsData data =>
      if bool_decide (leads s = Some data) then []
      else map (fun l => MarkConfirmed (id l))
               (List.filter
                  (fun l => needsUpdate l && JS.truthy (call_successful l))
                  data)
  | User a => if enabled s a then calls_of_action s a else []
  | TimerFired leadId =>
      if bool_decide (leadId ∈ timers s) then [MarkConfirmed leadId] else []
  end.

End Leads.

(* ===================================================================== *)
(** ** Leads page, earlier revision (frontend/src/pages/Leads.js) *)
(* ===================================================================== *)

Module LeadsV1.
Import Fx.

(** This revision has the dialogs, the row menu and the upload, add,
    retry and mark-confirmed mutations of [Leads], written the same
    way (same handlers, same [disabled] props).  It has no Make Call
    item, no status dialog and no effect on [leads]; it polls every
    5 s and words three success toasts differently.  The state record
    of [Leads] is reused: the cells this revision lacks keep their
    initial value. *)

Definition leadsQuery : query :=
  {| queryKey := "leads"; endpoint := "/leads/"; refetchInterval := 5000 |}.

Inductive action :=
| ClickImportCsv
| CloseUploadDialog
| ChooseFile (file : option string)
| ClickUpload
| ClickAddLead
| CloseAddDialog
| EditNewLead (field value : string)
| ClickAddLeadSubmit
| ClickRowActions (row : Leads.lead)
| CloseActionMenu
| ClickRetryCall
| ClickRetryEntry
| ClickMarkConfirmed.

Definition embed (a : action) : Leads.action :=
  match a with
  | ClickImportCsv => Leads.ClickImportCsv
  | CloseUploadDialog => Leads.CloseUploadDialog
  | ChooseFile file => Leads.ChooseFile file
  | ClickUpload => Leads.ClickUpload
  | ClickAddLead => Leads.ClickAddLead
  | CloseAddDialog => Leads.CloseAddDialog
  | EditNewLead field value => Leads.EditNewLead field value
  | ClickAddLeadSubmit => Leads.ClickAddLeadSubmit
  | ClickRowActions row => Leads.ClickRowActions row
  | CloseActionMenu => Leads.CloseActionMenu
  | ClickRetryCall => Leads.ClickRetryCall
  | ClickRetryEntry => Leads.ClickRetryEntry
  | ClickMarkConfirmed => Leads.ClickMarkConfirmed
  end.

Definition onSuccess (c : Leads.call) (response : Api.response)
  : Leads.handler :=
  match c with
  | Leads.Upload _ | Leads.AddLead _ => Leads.onSuccess c response
  | Leads.RetryCall _ =>
      Leads.andThen (Leads.emit (Toast Success "Lead marked for call retry"))
                    (Leads.emit (InvalidateQueries "leads"))
  | Leads.RetryEntry _ =>
      Leads.andThen
        (Leads.emit (Toast Success "Lead marked for data entry retry"))
        (Leads.emit (InvalidateQueries "leads"))
  | Leads.MarkConfirmed _ =>
      Leads.andThen (Leads.emit (Toast Success "Lead marked as confirmed"))
                    (Leads.emit (InvalidateQueries "leads"))
  | Leads.MakeCall _ | Leads.UpdateStatus _ _ => Leads.skip
  end.

Definition settle (c : Leads.call) (r : Api.result) : Leads.handler :=
  Leads.andThen
    (Leads.modify
       (fun s => Leads.setInflight
                   (Leads.remove_first c (Leads.inflight s)) s))
    match r with
    | Api.Fulfilled response => onSuccess c response
    | Api.Rejected error => Leads.onError c error
    end.

Inductive event :=
| RefetchTick
| LeadsData (data : list Leads.lead)
| User (a : action)
| Settled (c : Leads.call) (r : Api.result).

Definition step (s : Leads.state) (ev : event) : Leads.state * list effect :=
  match ev with
  | RefetchTick => Leads.emit (Http (Api.get (endpoint leadsQuery))) s
  | LeadsData data => Leads.modify (Leads.setLeads (Some data)) s
  | User a =>
      if Leads.enabled s (embed a) then Leads.on_action (embed a) s
      else Leads.skip s
  | Settled c r =>
      if bool_decide (c ∈ Leads.inflight s) then settle c r s
      else Leads.skip s
  end.

(** The label of the Status chip of this revision:
    [params.value.replace('_', ' ').toUpperCase()]. *)
Definition status_label (value : string) : string :=
  JS.toUpperCase (JS.replace_first "_"%char " "%char value).

(** A run of this revision, with the effects of each event. *)
Fixpoint run (s : Leads.state) (evs : list event)
  : Leads.state * list (event * effect) :=
  match evs with
  | [] => (s, [])
  | ev :: evs' =>
      let '(s1, effs) := step s ev in
      let '(s2, log) := run s1 evs' in
      (s2, (map (pair ev) effs ++ log)%list)
  end.

End LeadsV1.

(* ===================================================================== *)
(** ** Layout shell (frontend/src/components/Layout.js) *)
(* ===================================================================== *)

Module Layout.
Import Fx.

Record agent_status := {
  agents_running : JS.value;
  voice_agent_running : JS.value;
  data_entry_agent_running : JS.value;
}.

Definition agentStatusQuery : query :=
  {| queryKey := "agentStatus"; endpoint := "/agents/status";
     refetchInterval := 5000 |}.

(** [menuItems]: text and path. *)
Definition menuItems : list (string * string) :=
  [ ("Dashboard", "/"); ("Leads", "/leads"); ("Call Logs", "/call-logs");
    ("Data Entry Logs", "/data-entry-logs"); ("Settings", "/settings") ].

Inductive call := StartAgents | StopAgents.

#[global] Instance call_eq_dec : EqDecision call.
Proof. solve_decision. Defined.

Definition mutationFn (c : call) : Api.request :=
  match c with
  | StartAgents => Api.post "/agents/start" Api.NoBody
  | StopAgents => Api.post "/agents/stop" Api.NoBody
  end.

Record state := {
  mobileOpen : bool;
  agentStatus : option agent_status;
  inflight : list call;
}.

Definition initial : state :=
  {| mobileOpen := false; agentStatus := None; inflight := [] |}.

Definition isLoading (c : call) (s : state) : bool :=
  bool_decide (c ∈ inflight s).

Definition mutate (c : call) (s : state) : state * list effect :=
  ({| mobileOpen := mobileOpen s; agentStatus := agentStatus s;
      inflight := c :: inflight s |},
   [Http (mutationFn c)]).

(** [agentStatus?.agents_running]. *)
Definition agents_running_now (s : state) : bool :=
  match agentStatus s with
  | Some st => JS.truthy (agents_running st)
  | None => false
  end.

Definition handleAgentToggle (s : state) : state * list effect :=
  if agents_running_now s then mutate StopAgents s else mutate StartAgents s.

Definition handleDrawerToggle (s : state) : state * list effect :=
  ({| mobileOpen := negb (mobileOpen s); agentStatus := agentStatus s;
      inflight := inflight s |}, []).

Definition handleNavigation (path : string) (s : state)
  : state * list effect :=
  ({| mobileOpen := false; agentStatus := agentStatus s;
      inflight := inflight s |}, [Navigate path]).

Inductive action :=
| ClickDrawerToggle
| ClickMenuItem (path : string)
| ClickAgentToggle.

Definition enabled (s : state) (a : action) : bool :=
  match a with
  | ClickDrawerToggle => true
  | ClickMenuItem path => bool_decide (path ∈ map snd menuItems)
  | ClickAgentToggle =>
      negb (isLoading StartAgents s || isLoading StopAgents s)
  end.

Definition success_text (c : call) : string :=
  match c with
  | StartAgents => "Agents started successfully"
  | StopAgents => "Agents stopped successfully"
  end.

Definition error_prefix (c : call) : string :=
  match c with
  | StartAgents => "Failed to start agents: "
  | StopAgents => "Failed to stop agents: "
  end.

Definition settle (c : call) (r : Api.result) (s : state)
  : state * list effect :=
  ({| mobileOpen := mobileOpen s; agentStatus := agentStatus s;
      inflight := Leads.remove_first c (inflight s) |},
   match r with
   | Api.Fulfilled _ =>
       [Toast Success (success_text c); InvalidateQueries "agentStatus"]
   | Api.Rejected error =>
       [Toast Error (error_prefix c ++ Api.error_text error)]
   end).

Inductive event :=
| RefetchTick
| StatusData (data : agent_status)
| User (a : action)
| Settled (c : call) (r : Api.result).

Definition step (s : state) (ev : event) : state * list effect :=
  match ev with
  | RefetchTick => (s, [Http (Api.get (endpoint agentStatusQuery))])
  | StatusData data =>
      ({| mobileOpen := mobileOpen s; agentStatus := Some data;
          inflight := inflight s |}, [])
  | User a =>
      if enabled s a then
        match a with
        | ClickDrawerToggle => handleDrawerToggle s
        | ClickMenuItem path => handleNavigation path s
        | ClickAgentToggle => handleAgentToggle s
        end
      else (s, [])
  | Settled c r =>
      if bool_decide (c ∈ inflight s) then settle c r s else (s, [])
  end.

Fixpoint run (s : state) (evs : list event) : state * list effect :=
  match evs with
  | [] => (s, [])
  | ev :: evs' =>
      let '(s1, effs) := step s ev in
      let '(s2, log) := run s1 evs' in
      (s2, (effs ++ log)%list)
  end.

End Layout.

(* ===================================================================== *)
(** ** Settings page with the call-attempt caps (unnamed/part_001) *)
(* ===================================================================== *)

Module Settings.
Import Fx.

Definition days : list string := ["day1"; "day2"; "day3"; "day4"; "day5"; "day6"].

(** The initial [callSettings]. *)
Definition defaultCallSettings : gmap string JS.value :=
  list_to_map
    [ ("day1", JS.Int 5); ("day2", JS.Int 4); ("day3", JS.Int 2);
      ("day4", JS.Int 2); ("day5", JS.Int 2); ("day6", JS.Int 0) ].

Record snackbar_state := {
  open : bool;
  message : string;
  severity : Fx.severity;
}.

(** The [Snackbar] closes itself after this many ms. *)
Definition autoHideDuration : Z := 6000.

Inductive pending_request := Fetch | Save.

#[global] Instance pending_eq_dec : EqDecision pending_request.
Proof. solve_decision. Defined.

Record state := {
  callSettings : gmap string JS.value;
  loading : bool;
  snackbar : snackbar_state;
  pending : list pending_request;
}.

Definition initial : state :=
  {| callSettings := defaultCallSettings; loading := false;
     snackbar := {| open := false; message := ""; severity := Success |};
     pending := [] |}.

Definition setCallSettings v (s : state) : state :=
  {| callSettings := v; loading := loading s; snackbar := snackbar s;
     pending := pending s |}.
Definition setLoading v (s : state) : state :=
  {| callSettings := callSettings s; loading := v; snackbar := snackbar s;
     pending := pending s |}.
Definition setSnackbar v (s : state) : state :=
  {| callSettings := callSettings s; loading := loading s; snackbar := v;
     pending := pending s |}.
Definition setPending v (s : state) : state :=
  {| callSettings := callSettings s; loading := loading s;
     snackbar := snackbar s; pending := v |}.

(** [handleCallSettingChange(day, value)] in a render whose
    [callSettings] is [cs]: the object it hands to [setCallSettings],
<<
    const numValue = parseInt(value, 10) || 0;
    setCallSettings({ ...callSettings, [day]: numValue });
>> *)
Definition handleCallSettingChange
    (cs : gmap string JS.value) (day value : string) : gmap string JS.value :=
  let numValue := JS.parseInt_or_0 value in
  <[day := JS.Int numValue]> cs.

(** The four text fields. *)
Inductive field := Day1 | Day2 | Days3to5 | Day6.

(** The [onChange] of a field: the objects passed to
    [setCallSettings], in order.  Every call of one handler run reads
    the [callSettings] of the same render. *)
Definition onChange (cs : gmap string JS.value) (f : field) (value : string)
  : list (gmap string JS.value) :=
  match f with
  | Day1 => [handleCallSettingChange cs "day1" value]
  | Day2 => [handleCallSettingChange cs "day2" value]
  | Days3to5 =>
      [ handleCallSettingChange cs "day3" value;
        handleCallSettingChange cs "day4" value;
        handleCallSettingChange cs "day5" value ]
  | Day6 => [handleCallSettingChange cs "day6" value]
  end.

(** Several plain [setState(v)] calls of one handler run are batched:
    the last value written is the next state. *)
Definition batched {A} (writes : list A) (current : A) : A :=
  List.last writes current.

Inductive fetch_result :=
| FetchFulfilled (data : gmap string JS.value)
| FetchRejected (e : Api.error).

Inductive action :=
| Change (f : field) (value : string)
| ClickSave
| CloseSnackbar.

Inductive event :=
| Mount                               (* the effect with no dependency *)
| FetchSettled (r : fetch_result)
| SaveSettled (r : Api.result)
| User (a : action)
| AutoHide.                           (* autoHideDuration elapsed *)

(** [fetchCallSettings], up to the [await]. *)
Definition fetchCallSettings (s : state) : state * list effect :=
  (setPending (Fetch :: pending s) (setLoading true s),
   [Http (Api.get "/settings/call-attempts")]).

(** [saveCallSettings], up to the [await]. *)
Definition saveCallSettings (s : state) : state * list effect :=
  (setPending (Save :: pending s) (setLoading true s),
   [Http (Api.post "/settings/call-attempts" (Api.JsonObject (callSettings s)))]).

Definition handleCloseSnackbar (s : state) : state * list effect :=
  (setSnackbar {| open := false; message := message (snackbar s);
                  severity := severity (snackbar s) |} s, []).

Definition step (s : state) (ev : event) : state * list effect :=
  match ev with
  | Mount => fetchCallSettings initial
  | FetchSettled r =>
      if bool_decide (Fetch ∈ pending s) then
        let s := setPending (Leads.remove_first Fetch (pending s)) s in
        match r with
        | FetchFulfilled data =>
            (setLoading false (setCallSettings data s), [])
        | FetchRejected error =>
            (setLoading false
               (setSnackbar
                  {| open := true;
                     message := "Error loading settings: "
                                ++ Api.error_text error;
                     severity := Error |} s),
             [Console "Failed to fetch call settings:"])
        end
      else (s, [])
  | SaveSettled r =>
      if bool_decide (Save ∈ pending s) then
        let s := setPending (Leads.remove_first Save (pending s)) s in
        match r with
        | Api.Fulfilled _ =>
            (setLoading false
               (setSnackbar
                  {| open := true;
                     message := "Call attempt settings saved successfully!";
                     severity := Success |} s), [])
        | Api.Rejected error =>
            (setLoading false
               (setSnackbar
                  {| open := true;
                     message := "Error saving settings: "
                                ++ Api.error_text error;
                     severity := Error |} s), [])
        end
      else (s, [])
  | User (Change f value) =>
      (setCallSettings
         (batched (onChange (callSettings s) f value) (callSettings s)) s, [])
  | User ClickSave =>
      if loading s then (s, []) else saveCallSettings s
  | User CloseSnackbar | AutoHide =>
      if open (snackbar s) then handleCloseSnackbar s else (s, [])
  end.

Fixpoint run (s : state) (evs : list event) : state * list effect :=
  match evs with
  | [] => (s, [])
  | ev :: evs' =>
      let '(s1, effs) := step s ev in
      let '(s2, log) := run s1 evs' in
      (s2, (effs ++ log)%list)
  end.

(** Every key [day1] .. [day6] is present and holds an integer. *)
Definition integer_caps (o : gmap string JS.value) : Prop :=
  forall day, day ∈ days -> exists n : Z, o !! day = Some (JS.Int n).

(** The bodies of the [POST /settings/call-attempts] among the effects. *)
Definition saved_payloads (effs : list effect) : list (gmap string JS.value) :=
  flat_map
    (fun e => match e with
              | Http {| Api.meth := Api.POST; Api.payload := Api.JsonObject o |}
                  => [o]
              | _ => []
              end) effs.

End Settings.

(* ===================================================================== *)
(** ** Dashboard page (first component of frontend/src/pages/Dashboard.js) *)
(* ===================================================================== *)

Module Dashboard.
Import Fx.

Definition statusLabels : list (string * string) :=
  [ ("pending", "Pending"); ("calling", "Calling");
    ("confirmed", "Confirmed"); ("call_failed", "Call Failed");
    ("not_interested", "Not Interested");
    ("entry_in_progress", "Entry in Progress");
    ("entered", "Entered"); ("entry_failed", "Entry Failed") ].

Definition dashboardStatsQuery : query :=
  {| queryKey := "dashboardStats"; endpoint := "/stats/dashboard";
     refetchInterval := 10000 |}.
Definition statusBreakdownQuery : query :=
  {| queryKey := "statusBreakdown"; endpoint := "/stats/status-breakdown";
     refetchInterval := 10000 |}.

Record state := {
  dashboardStats : option (gmap string JS.value);
  statusBreakdown : option (list (string * Z));
}.

(** [statusLabels[key] || key]. *)
Definition label (key : string) : string :=
  match List.find (fun kv => (fst kv =? key)%string) statusLabels with
  | Some (_, l) => l
  | None => key
  end.

(** The chart rows: name and value. *)
Definition barData (s : state) : list (string * Z) :=
  match statusBreakdown s with
  | Some entries => map (fun kv => (label (fst kv), snd kv)) entries
  | None => []
  end.
Definition pieData (s : state) : list (string * Z) :=
  List.filter (fun item => 0 <? snd item) (barData s).

Inductive event :=
| StatsTick                           (* a refetch interval elapsed *)
| BreakdownTick
| StatsData (data : gmap string JS.value)
| BreakdownData (data : list (string * Z)).

Definition step (s : state) (ev : event) : state * list effect :=
  match ev with
  | StatsTick => (s, [Http (Api.get (endpoint dashboardStatsQuery))])
  | BreakdownTick => (s, [Http (Api.get (endpoint statusBreakdownQuery))])
  | StatsData data =>
      ({| dashboardStats := Some data; statusBreakdown := statusBreakdown s |},
       [])
  | BreakdownData data =>
      ({| dashboardStats := dashboardStats s; statusBreakdown := Some data |},
       [])
  end.

(** [COLORS], and the fill of the pie cell number [index]:
    [COLORS[index % COLORS.length]]. *)
Definition COLORS : list string :=
  [ "#0088FE"; "#00C49F"; "#FFBB28"; "#FF8042"; "#8884D8"; "#82CA9D";
    "#FFC658"; "#FF7C7C" ].

Definition cell_fill (index : nat) : option string :=
  List.nth_error COLORS (index mod List.length COLORS).

End Dashboard.

(* ===================================================================== *)
(** ** Data Entry Logs page (unnamed/part_000) *)
(* ===================================================================== *)

Module DataEntryLogs.
Import Fx.

Definition dataEntryLogsQuery : query :=
  {| queryKey := "dataEntryLogs"; endpoint := "/data-entry-logs/";
     refetchInterval := 10000 |}.

(** The fields of a row that a handler reads. *)
Record row := { screenshot_path : JS.value }.

#[global] Instance row_eq_dec : EqDecision row.
Proof. solve_decision. Defined.

Definition state := option (list row).

Inductive action := ClickScreenshot (r : row).

Inductive event :=
| RefetchTick
| LogsData (data : list row)
| User (a : action).

Definition step (s : state) (ev : event) : state * list effect :=
  match ev with
  | RefetchTick => (s, [Http (Api.get (endpoint dataEntryLogsQuery))])
  | LogsData data => (Some data, [])
  | User (ClickScreenshot r) =>
      if bool_decide (r ∈ default [] s) && JS.truthy (screenshot_path r)
      then (s, [OpenWindow ("/screenshots/" ++ JS.render (screenshot_path r))])
      else (s, [])
  end.

(** The Error Message cell: nothing for a falsy value, else
    [value.length > 50 ? `${value.substring(0, 50)}...` : value]. *)
Definition error_cell (value : option string) : option string :=
  match value with
  | Some v =>
      if (v =? "")%string then None
      else Some (if (50 <? String.length v)%nat
                 then String.substring 0 50 v ++ "..."
                 else v)
  | None => None
  end.

(** A [started_at] / [completed_at] value: absent (null, undefined or
    empty), or a time stamp, taken as the milliseconds [new Date] gives
    for it. *)
Inductive time_arg :=
| NoTime
| At (ms : Z).

(** The time value of a [Date] is at most this many milliseconds from
    the epoch, on either side. *)
Definition max_time : Z := 8640000000000000.

(** [formatDuration(startTime, endTime)]:
<<
    if (!startTime || !endTime) return 'N/A';
    const diffMs = end - start;
    const diffSecs = Math.floor(diffMs / 1000);
    const mins = Math.floor(diffSecs / 60);
    const secs = diffSecs % 60;
    return `${mins}:${secs.toString().padStart(2, '0')}`;
>>
    The subtraction and the two divisions are the exact ones, as they
    are on numbers for a difference of at most [JS.max_exact]. *)
Definition formatDuration (startTime endTime : time_arg) : string :=
  match startTime, endTime with
  | At start, At end_ =>
      let diffMs := end_ - start in
      let diffSecs := diffMs / 1000 in
      let mins := diffSecs / 60 in
      let secs := Z.rem diffSecs 60 in
      JS.toString mins ++ ":" ++ JS.padStart 2 "0"%char (JS.toString secs)
  | _, _ => "N/A"
  end.

End DataEntryLogs.

(* ===================================================================== *)
(** ** The whole dashboard *)
(* ===================================================================== *)

Module App.
Import Fx.

(** Every [useQuery] that sets a [refetchInterval]. *)
Definition polling_queries : list query :=
  [ Leads.leadsQuery; LeadsV1.leadsQuery; Layout.agentStatusQuery;
    Dashboard.dashboardStatsQuery; Dashboard.statusBreakdownQuery;
    CallLogs.callLogsQuery; DataEntryLogs.dataEntryLogsQuery ].

Record state := {
  layout : Layout.state;
  leads : Leads.state;
  leadsV1 : Leads.state;
  settings : Settings.state;
  dashboard : Dashboard.state;
  callLogs : CallLogs.state;
  dataEntryLogs : DataEntryLogs.state;
}.

Definition initial : state :=
  {| layout := Layout.initial; leads := Leads.initial;
     leadsV1 := Leads.initial; settings := Settings.initial;
     dashboard := {| Dashboard.dashboardStats := None;
                     Dashboard.statusBreakdown := None |};
     callLogs := None; dataEntryLogs := None |}.

(** An event of one of the components. *)
Inductive event :=
| InLayout (e : Layout.event)
| InLeads (e : Leads.event)
| InLeadsV1 (e : LeadsV1.event)
| InSettings (e : Settings.event)
| InDashboard (e : Dashboard.event)
| InCallLogs (e : CallLogs.event)
| InDataEntryLogs (e : DataEntryLogs.event).

(** The operator's gestures. *)
Definition user_action (ev : event) : bool :=
  match ev with
  | InLayout (Layout.User _) | InLeads (Leads.User _)
  | InLeadsV1 (LeadsV1.User _) | InSettings (Settings.User _)
  | InCallLogs (CallLogs.User _) | InDataEntryLogs (DataEntryLogs.User _) => true
  | _ => false
  end.

(** The arrival of the data of a polling query. *)
Definition poll_answer (ev : event) : bool :=
  match ev with
  | InLayout (Layout.StatusData _) | InLeads (Leads.LeadsData _)
  | InLeadsV1 (LeadsV1.LeadsData _)
  | InDashboard (Dashboard.StatsData _)
  | InDashboard (Dashboard.BreakdownData _)
  | InCallLogs (CallLogs.LogsData _)
  | InDataEntryLogs (DataEntryLogs.LogsData _) => true
  | _ => false
  end.

Definition step (s : state) (ev : event) : state * list effect :=
  match ev with
  | InLayout e =>
      let '(c, effs) := Layout.step (layout s) e in
      ({| layout := c; leads := leads s; leadsV1 := leadsV1 s;
          settings := settings s; dashboard := dashboard s;
          callLogs := callLogs s; dataEntryLogs := dataEntryLogs s |}, effs)
  | InLeads e =>
      let '(c, effs) := Leads.step (leads s) e in
      ({| layout := layout s; leads := c; leadsV1 := leadsV1 s;
          settings := settings s; dashboard := dashboard s;
          callLogs := callLogs s; dataEntryLogs := dataEntryLogs s |}, effs)
  | InLeadsV1 e =>
      let '(c, effs) := LeadsV1.step (leadsV1 s) e in
      ({| layout := layout s; leads := leads s; leadsV1 := c;
          settings := settings s; dashboard := dashboard s;
          callLogs := callLogs s; dataEntryLogs := dataEntryLogs s |}, effs)
  | InSettings e =>
      let '(c, effs) := Settings.step (settings s) e in
      ({| layout := layout s; leads := leads s; leadsV1 := leadsV1 s;
          settings := c; dashboard := dashboard s;
          callLogs := callLogs s; dataEntryLogs := dataEntryLogs s |}, effs)
  | InDashboard e =>
      let '(c, effs) := Dashboard.step (dashboard s) e in
      ({| layout := layout s; leads := leads s; leadsV1 := leadsV1 s;
          settings := settings s; dashboard := c;
          callLogs := callLogs s; dataEntryLogs := dataEntryLogs s |}, effs)
  | InCallLogs e =>
      let '(c, effs) := CallLogs.step (callLogs s) e in
      ({| layout := layout s; leads := leads s; leadsV1 := leadsV1 s;
          settings := settings s; dashboard := dashboard s;
          callLogs := c; dataEntryLogs := dataEntryLogs s |}, effs)
  | InDataEntryLogs e =>
      let '(c, effs) := DataEntryLogs.step (dataEntryLogs s) e in
      ({| layout := layout s; leads := leads s; leadsV1 := leadsV1 s;
          settings := settings s; dashboard := dashboard s;
          callLogs := callLogs s; dataEntryLogs := c |}, effs)
  end.

(** A run: the final state and the requests issued, each with the
    event whose handling issued it. *)
Fixpoint run (s : state) (evs : list event)
  : state * list (event * Api.request) :=
  match evs with
  | [] => (s, [])
  | ev :: evs' =>
      let '(s1, effs) := step s ev in
      let '(s2, log) := run s1 evs' in
      (s2, (map (pair ev) (requests effs) ++ log)%list)
  end.

(** The operator's two retry gestures, on either revision of the page. *)
Definition retry_call_click (ev : event) : Prop :=
  ev = InLeads (Leads.User Leads.ClickRetryCall)
  \/ ev = InLeadsV1 (LeadsV1.User LeadsV1.ClickRetryCall).

Definition retry_entry_click (ev : event) : Prop :=
  ev = InLeads (Leads.User Leads.ClickRetryEntry)
  \/ ev = InLeadsV1 (LeadsV1.User LeadsV1.ClickRetryEntry).

Definition from_retry_click (ev : event) (r : Api.request) : Prop :=
  forall x : string,
    (Api.url r = "/leads/" ++ x ++ "/retry-call" -> retry_call_click ev)
    /\ (Api.url r = "/leads/" ++ x ++ "/retry-entry" -> retry_entry_click ev).

End App.

(* ===================================================================== *)
(** ** The specification's vocabulary *)
(* ===================================================================== *)

Module Spec.

(** The observed REST surface (section 6 of the specification), written
    from its wording: method and path, [{id}] standing for any text. *)
Inductive rest_surface : Api.method -> string -> Prop :=
| get_leads : rest_surface Api.GET "/leads/"
| post_leads : rest_surface Api.POST "/leads/"
| post_import_csv : rest_surface Api.POST "/leads/import-csv/"
| post_retry_call id :
    rest_surface Api.POST ("/leads/" ++ id ++ "/retry-call")
| post_retry_entry id :
    rest_surface Api.POST ("/leads/" ++ id ++ "/retry-entry")
| post_mark_confirmed id :
    rest_surface Api.POST ("/leads/" ++ id ++ "/mark-confirmed")
| post_status id :
    rest_surface Api.POST ("/leads/" ++ id ++ "/status")
| get_call_logs : rest_surface Api.GET "/call-logs/"
| get_data_entry_logs : rest_surface Api.GET "/data-entry-logs/"
| get_stats_dashboard : rest_surface Api.GET "/stats/dashboard"
| get_stats_status_breakdown : rest_surface Api.GET "/stats/status-breakdown"
| get_agents_status : rest_surface Api.GET "/agents/status"
| post_agents_start : rest_surface Api.POST "/agents/start"
| post_agents_stop : rest_surface Api.POST "/agents/stop"
| get_settings_call_attempts : rest_surface Api.GET "/settings/call-attempts"
| post_settings_call_attempts :
    rest_surface Api.POST "/settings/call-attempts".

(** The lead states (section 4.1 of the specification), in its order. *)
Definition lead_states : list string :=
  [ "pending"; "calling"; "confirmed"; "call_failed"; "not_interested";
    "no_answer"; "callback_requested"; "entry_in_progress"; "entered";
    "entry_failed" ].

End Spec.

(* ===================================================================== *)
(** ** Sample data and runs *)
(* ===================================================================== *)

Module Sample.

(** Lead 7: its call has completed successfully and the row still says
    [calling]. *)
Definition completed_call : Leads.lead :=
  {| Leads.id := JS.Int 7; Leads.status := "calling";
     Leads.call_completed_at := JS.Str "2025-01-15T10:30:00";
     Leads.status_updated_after_call := JS.Bool false;
     Leads.call_successful := JS.Bool true; Leads.rest := ∅ |}.

(** Lead 8: already entered in the portal. *)
Definition entered_lead : Leads.lead :=
  {| Leads.id := JS.Int 8; Leads.status := "entered";
     Leads.call_completed_at := JS.Null;
     Leads.status_updated_after_call := JS.Null;
     Leads.call_successful := JS.Null; Leads.rest := ∅ |}.

(** Lead 9: freshly imported. *)
Definition pending_lead : Leads.lead :=
  {| Leads.id := JS.Int 9; Leads.status := "pending";
     Leads.call_completed_at := JS.Null;
     Leads.status_updated_after_call := JS.Null;
     Leads.call_successful := JS.Null; Leads.rest := ∅ |}.

(** The operator opens the row menu of a lead of the fetched list. *)
Definition open_menu_on (l : Leads.lead) : list Leads.event :=
  [ Leads.LeadsData [l]; Leads.User (Leads.ClickRowActions l) ].

Definition menu_on (l : Leads.lead) : Leads.state :=
  fst (Leads.run Leads.initial (open_menu_on l)).

Definition app_with_leads (c : Leads.state) : App.state :=
  {| App.layout := Layout.initial; App.leads := c; App.leadsV1 := c;
     App.settings := Settings.initial;
     App.dashboard := App.dashboard App.initial;
     App.callLogs := None; App.dataEntryLogs := None |}.

(** The back end reports a successful call. *)
Definition call_succeeded : Api.result :=
  Api.Fulfilled {| Api.message := ""; Api.call_successful := JS.Bool true |}.


(** A rejection carrying a server detail, and one without. *)
Definition not_found : Api.error :=
  {| Api.detail := JS.Scalar (JS.Str "Lead not found");
     Api.error_message := "Request failed with status code 404" |}.
Definition network_error : Api.error :=
  {| Api.detail := JS.Scalar JS.Undefined;
     Api.error_message := "Network Error" |}.

(** A rejection of a request whose body fails validation: the detail
    is FastAPI's array of error objects. *)
Definition validation_error : Api.error :=
  {| Api.detail :=
       JS.Array
         [ JS.Object
             [ ("loc", JS.Array [ JS.Scalar (JS.Str "body");
                                  JS.Scalar (JS.Str "email") ]);
               ("msg", JS.Scalar (JS.Str "field required"));
               ("type", JS.Scalar (JS.Str "value_error.missing")) ] ];
     Api.error_message := "Request failed with status code 422" |}.

(** The Add Lead dialog with its request in flight. *)
Definition adding : Leads.state :=
  fst (Leads.run Leads.initial
         [ Leads.User Leads.ClickAddLead;
           Leads.User Leads.ClickAddLeadSubmit ]).

(** A settings answer whose [day1] is text and whose other days are
    missing. *)
Definition odd_settings : gmap string JS.value :=
  {[ "day1" := JS.Str "five" ]}.

(** The Leads page with one retry-call request in flight. *)
Definition retrying : Leads.state :=
  fst (Leads.run Leads.initial
         (open_menu_on completed_call ++ [Leads.User Leads.ClickRetryCall])%list).

(** The operator loads the settings page, gets well-formed caps, edits
    day 1 and the days 3-5 field, and saves. *)
Definition fetched_caps : gmap string JS.value :=
  list_to_map
    [ ("day1", JS.Int 3); ("day2", JS.Int 3); ("day3", JS.Int 1);
      ("day4", JS.Int 1); ("day5", JS.Int 1); ("day6", JS.Int 0) ].

Definition editing_session : list Settings.event :=
  [ Settings.Mount;
    Settings.FetchSettled (Settings.FetchFulfilled fetched_caps);
    Settings.User (Settings.Change Settings.Day1 "7");
    Settings.User (Settings.Change Settings.Days3to5 "");
    Settings.User Settings.ClickSave ].

(** The same, but the back end answers the fetch with [odd_settings]. *)
Definition odd_session : list Settings.event :=
  [ Settings.Mount;
    Settings.FetchSettled (Settings.FetchFulfilled odd_settings);
    Settings.User Settings.ClickSave ].

End Sample.

(* ===================================================================== *)
(** ** Invariants of the components *)
(* ===================================================================== *)

Module Inv.

(** Either nothing is pending and the page is idle, or one request is
    pending and the page is loading. *)
Definition settings_serialized (s : Settings.state) : Prop :=
  (Settings.pending s = [] /\ Settings.loading s = false)
  \/ (exists k, Settings.pending s = [k] /\ Settings.loading s = true).

(** The row menu is only open on a selected lead. *)
Definition menu_has_lead (s : Leads.state) : Prop :=
  Leads.actionMenuAnchor s = true -> is_Some (Leads.selectedLead s).

(** Invocations of mutation [m] that have not settled. *)
Definition in_flight (m : Leads.mutation) (s : Leads.state) : nat :=
  List.length
    (List.filter (fun c => bool_decide (Leads.mutation_of c = m))
                 (Leads.inflight s)).

(** The query keys invalidated among the effects, in order. *)
Definition invalidated (effs : list Fx.effect) : list string :=
  flat_map (fun e => match e with Fx.InvalidateQueries k => [k] | _ => [] end)
           effs.

(** The capital of a letter, read off the two alphabets; any other
    character is its own. *)
Definition capital (c : ascii) : ascii :=
  match String.index 0 (String c "") "abcdefghijklmnopqrstuvwxyz" with
  | Some k => default c (String.get k "ABCDEFGHIJKLMNOPQRSTUVWXYZ")
  | None => c
  end.

(** The click, on the earlier revision of the Leads page, that invokes
    a mutation; none invokes make-call or a status update. *)
Definition v1_click_of (c : Leads.call) (ev : LeadsV1.event) : Prop :=
  match c with
  | Leads.Upload _ => ev = LeadsV1.User LeadsV1.ClickUpload
  | Leads.AddLead _ => ev = LeadsV1.User LeadsV1.ClickAddLeadSubmit
  | Leads.RetryCall _ => ev = LeadsV1.User LeadsV1.ClickRetryCall
  | Leads.RetryEntry _ => ev = LeadsV1.User LeadsV1.ClickRetryEntry
  | Leads.MarkConfirmed _ => ev = LeadsV1.User LeadsV1.ClickMarkConfirmed
  | Leads.MakeCall _ | Leads.UpdateStatus _ _ => False
  end.

End Inv.

(* ===================================================================== *)
(** ** Properties *)
(* ===================================================================== *)

(** *** Facts on strings *)

Module TextFacts.
Import Text.

Lemma append_cons (x : ascii) (a b : string) :
  String x a ++ b = String x (a ++ b).
Proof. reflexivity. Qed.

Lemma append_assoc (a b c : string) : (a ++ b) ++ c = a ++ b ++ c.
Proof.
  induction a as [|x a IH]; [reflexivity|].
  now rewrite !append_cons, IH.
Qed.

Lemma append_nil_r (a : string) : a ++ "" = a.
Proof.
  induction a as [|x a IH]; [reflexivity|].
  now rewrite append_cons, IH.
Qed.

Lemma rev_app_acc (s acc : string) :
  String.rev_app s acc = String.rev s ++ acc.
Proof.
  unfold String.rev. revert acc.
  induction s as [|x s IH]; intros acc; [reflexivity|].
  change (String.rev_app s (String x acc)
          = String.rev_app s (String x "") ++ acc).
  rewrite (IH (String x acc)), (IH (String x "")), append_assoc.
  reflexivity.
Qed.

Lemma rev_append (a b : string) :
  String.rev (a ++ b) = String.rev b ++ String.rev a.
Proof.
  induction a as [|x a IH].
  - now rewrite append_nil_r.
  - rewrite append_cons. unfold String.rev.
    change (String.rev_app (a ++ b) (String x "")
            = String.rev_app b "" ++ String.rev_app a (String x "")).
    rewrite !(rev_app_acc _ (String x "")), IH.
    unfold String.rev. now rewrite append_assoc.
Qed.

(** The suffix test on [a ++ b] only needs the reversed [b] first. *)
Lemma ends_with_append (suffix a b : string) :
  ends_with suffix (a ++ b)
  = String.prefix (String.rev suffix) (String.rev b ++ String.rev a).
Proof. unfold ends_with. now rewrite rev_append. Qed.

Lemma occurs_in_append_r (pre s : string) : occurs_in s (pre ++ s).
Proof. exists pre, "". now rewrite append_nil_r. Qed.

Lemma prefix_append (a b : string) : String.prefix a (a ++ b) = true.
Proof.
  induction a as [|x a IH]; [now destruct b|].
  rewrite append_cons. simpl. destruct (ascii_dec x x); [exact IH|congruence].
Qed.

(** The search finds every occurrence. *)
Lemma occurs_in_contains (needle hay : string) :
  occurs_in needle hay -> contains needle hay = true.
Proof.
  intros (pre & post & ->). induction pre as [|x pre IH].
  - change ("" ++ needle ++ post) with (needle ++ post).
    destruct (needle ++ post) eqn:E; cbn [contains]; rewrite <- E;
      now rewrite prefix_append.
  - rewrite append_cons. cbn [contains]. rewrite IH. apply orb_true_r.
Qed.

Lemma ends_with_suffix (suffix a : string) :
  ends_with suffix (a ++ suffix) = true.
Proof. rewrite ends_with_append. apply prefix_append. Qed.

(** A string that does not end with [suffix] is no [a ++ suffix]. *)
Lemma not_suffix_neq (suffix u a : string) :
  ends_with suffix u = false -> u <> a ++ suffix.
Proof.
  intros Hu ->. rewrite ends_with_suffix in Hu. discriminate.
Qed.

(** The same for a path [pre ++ mid ++ suffix]. *)
Lemma not_suffix_neq3 (suffix u pre mid : string) :
  ends_with suffix u = false -> u <> pre ++ mid ++ suffix.
Proof. rewrite <- append_assoc. apply not_suffix_neq. Qed.

(** [pre ++ mid ++ tail] does not end with [suffix] when the reversed
    [tail] already disagrees with the reversed [suffix]. *)
Lemma ends_with_path (suffix pre mid tail : string) :
  ends_with suffix (pre ++ mid ++ tail)
  = String.prefix (String.rev suffix)
                  (String.rev tail ++ String.rev (pre ++ mid)).
Proof. now rewrite <- append_assoc, ends_with_append. Qed.

End TextFacts.

(** *** Two-digit padding *)

Lemma pad_two_digits (r : Z) :
  0 <= r < 100 ->
  JS.padStart 2 "0"%char (JS.toString r) = CallLogs.two_digits r.
Proof.
  intros Hr.
  assert (Hall : forallb
            (fun n => String.eqb
                        (JS.padStart 2 "0"%char (JS.toString (Z.of_nat n)))
                        (CallLogs.two_digits (Z.of_nat n)))
            (seq 0 100) = true) by (vm_compute; reflexivity).
  rewrite forallb_forall in Hall.
  specialize (Hall (Z.to_nat r)).
  rewrite Z2Nat.id in Hall by lia.
  apply String.eqb_eq, Hall, in_seq. lia.
Qed.


(** *** Facts on the handlers of the Leads page *)

Module LeadsFacts.
Import Fx Leads.

Lemma andThen_effects (h k : handler) (s : state) :
  snd (andThen h k s) = (snd (h s) ++ snd (k (fst (h s))))%list.
Proof.
  unfold andThen. destruct (h s) as [s1 e1]. simpl.
  destruct (k s1) as [s2 e2]. reflexivity.
Qed.

Lemma andThen_state (h k : handler) (s : state) :
  fst (andThen h k s) = fst (k (fst (h s))).
Proof.
  unfold andThen. destruct (h s) as [s1 e1]. simpl.
  destruct (k s1) as [s2 e2]. reflexivity.
Qed.

Lemma filter_filter {A} (p q : A -> bool) (l : list A) :
  List.filter q (List.filter p l) = List.filter (fun x => p x && q x) l.
Proof.
  induction l as [|x l IH]; [reflexivity|]. simpl.
  destruct (p x); simpl; [destruct (q x)|]; now rewrite IH.
Qed.

Lemma forEach_confirm_effects (ls : list lead) (s : state) :
  snd (forEach
         (fun lead => if JS.truthy (call_successful lead)
                      then mutate (MarkConfirmed (id lead)) else skip) ls s)
  = map (fun l => Http (mutationFn (MarkConfirmed (id l))))
        (List.filter (fun l => JS.truthy (call_successful l)) ls).
Proof.
  revert s. induction ls as [|l ls IH]; intros s; [reflexivity|].
  cbn [forEach]. rewrite andThen_effects, IH. simpl.
  destruct (JS.truthy (call_successful l)); reflexivity.
Qed.

Lemma autoUpdateEffect_effects (s : state) :
  snd (autoUpdateEffect s)
  = map (fun l => Http (mutationFn (MarkConfirmed (id l))))
        (List.filter
           (fun l => needsUpdate l && JS.truthy (call_successful l))
           (default [] (leads s))).
Proof.
  unfold autoUpdateEffect. destruct (leads s) as [ls|]; [|reflexivity].
  simpl. rewrite <- filter_filter.
  destruct (List.filter needsUpdate ls) as [|l ls'] eqn:E; [reflexivity|].
  cbn [List.length Nat.ltb Nat.leb].
  apply forEach_confirm_effects.
Qed.

Lemma requests_map_http {A} (f : A -> Api.request) (l : list A) :
  requests (map (fun x => Http (f x)) l) = map f l.
Proof.
  induction l as [|x l IH]; [reflexivity|]. simpl. now rewrite IH.
Qed.

(** The requests of a step: the GET of a refetch, and one POST per
    mutation invoked. *)
Lemma step_requests (s : state) (ev : event) :
  requests (snd (step s ev))
  = match ev with
    | RefetchTick => [Api.get "/leads/"]
    | _ => map mutationFn (calls_issued s ev)
    end.
Proof.
  destruct ev as [|data|a|c r|leadId]; cbn [step calls_issued].
  - reflexivity.
  - case_bool_decide; [reflexivity|].
    rewrite andThen_effects. cbn [modify fst snd app].
    rewrite autoUpdateEffect_effects. cbn [setLeads leads default].
    now rewrite requests_map_http, map_map.
  - destruct (enabled s a); [|reflexivity].
    destruct a; try reflexivity; cbn [on_action calls_of_action].
    + unfold handleFileUpload. destruct (selectedFile s); reflexivity.
    + unfold with_selectedLead, selected_call.
      destruct (selectedLead s); reflexivity.
    + unfold with_selectedLead, selected_call.
      destruct (selectedLead s); reflexivity.
    + unfold with_selectedLead, selected_call.
      destruct (selectedLead s); reflexivity.
    + unfold with_selectedLead, selected_call.
      destruct (selectedLead s); reflexivity.
    + unfold handleStatusUpdate, selected_call.
      destruct (selectedLead s), (negb (selectedStatus s =? "")%string);
        reflexivity.
  - destruct (bool_decide (c ∈ inflight s)); [|reflexivity].
    destruct r as [resp|e]; destruct c; try reflexivity.
    cbn. destruct (JS.truthy (Api.call_successful resp)); reflexivity.
  - destruct (bool_decide (leadId ∈ timers s)); reflexivity.
Qed.

End LeadsFacts.


(** *** Which mutation a URL belongs to *)

Module UrlFacts.
Import Text TextFacts Leads.

Ltac other_suffix :=
  first [ rewrite ends_with_path; vm_compute; reflexivity
        | vm_compute; reflexivity ].

Lemma retry_call_url (c : call) (x : string) :
  Api.url (mutationFn c) = "/leads/" ++ x ++ "/retry-call" ->
  exists leadId, c = RetryCall leadId.
Proof.
  destruct c as [f|d|i|i st|i|i|i]; cbn [mutationFn Api.url Api.post];
    intros H; try (now eexists);
    exfalso; revert H; apply not_suffix_neq3; other_suffix.
Qed.

Lemma retry_entry_url (c : call) (x : string) :
  Api.url (mutationFn c) = "/leads/" ++ x ++ "/retry-entry" ->
  exists leadId, c = RetryEntry leadId.
Proof.
  destruct c as [f|d|i|i st|i|i|i]; cbn [mutationFn Api.url Api.post];
    intros H; try (now eexists);
    exfalso; revert H; apply not_suffix_neq3; other_suffix.
Qed.

(** Every mutation of the Leads page posts to the REST surface of the
    specification, except Make Call. *)
Lemma mutationFn_surface (c : call) :
  Api.meth (mutationFn c) = Api.POST
  /\ (Spec.rest_surface Api.POST (Api.url (mutationFn c))
      \/ exists leadId, c = MakeCall leadId).
Proof.
  split; [now destruct c|].
  destruct c; cbn [mutationFn Api.url Api.post];
    first [ left; constructor | right; now eexists ].
Qed.

End UrlFacts.


(** *** The requests of every component, event by event *)

Module Requests.
Import Fx.

Lemma leadsV1_requests (s : Leads.state) (ev : LeadsV1.event) :
  requests (snd (LeadsV1.step s ev))
  = match ev with
    | LeadsV1.RefetchTick => [Api.get "/leads/"]
    | LeadsV1.User a =>
        map Leads.mutationFn
            (Leads.calls_issued s (Leads.User (LeadsV1.embed a)))
    | _ => []
    end.
Proof.
  destruct ev as [|data|a|c r]; try reflexivity.
  - exact (LeadsFacts.step_requests s (Leads.User (LeadsV1.embed a))).
  - cbn [LeadsV1.step].
    destruct (bool_decide (c ∈ Leads.inflight s)); [|reflexivity].
    destruct r, c; reflexivity.
Qed.

Lemma layout_requests (s : Layout.state) (ev : Layout.event) :
  requests (snd (Layout.step s ev))
  = match ev with
    | Layout.RefetchTick => [Api.get "/agents/status"]
    | Layout.User Layout.ClickAgentToggle =>
        if Layout.enabled s Layout.ClickAgentToggle
        then [Layout.mutationFn
                (if Layout.agents_running_now s
                 then Layout.StopAgents else Layout.StartAgents)]
        else []
    | _ => []
    end.
Proof.
  destruct ev as [|data|a|c r]; try reflexivity.
  - cbn [Layout.step]. destruct a;
      destruct (Layout.enabled s _); try reflexivity.
    unfold Layout.handleAgentToggle.
    destruct (Layout.agents_running_now s); reflexivity.
  - cbn [Layout.step].
    destruct (bool_decide (c ∈ Layout.inflight s)); [|reflexivity].
    destruct r; reflexivity.
Qed.

Lemma settings_requests (s : Settings.state) (ev : Settings.event) :
  requests (snd (Settings.step s ev))
  = match ev with
    | Settings.Mount => [Api.get "/settings/call-attempts"]
    | Settings.User Settings.ClickSave =>
        if Settings.loading s then []
        else [Api.post "/settings/call-attempts"
                       (Api.JsonObject (Settings.callSettings s))]
    | _ => []
    end.
Proof.
  destruct ev as [|r|r|a|]; cbn [Settings.step]; try reflexivity.
  - destruct (bool_decide (Settings.Fetch ∈ Settings.pending s));
      [destruct r|]; reflexivity.
  - destruct (bool_decide (Settings.Save ∈ Settings.pending s));
      [destruct r|]; reflexivity.
  - destruct a; try reflexivity.
    + destruct (Settings.loading s); reflexivity.
    + destruct (Settings.open (Settings.snackbar s)); reflexivity.
  - destruct (Settings.open (Settings.snackbar s)); reflexivity.
Qed.

Lemma dashboard_requests (s : Dashboard.state) (ev : Dashboard.event) :
  requests (snd (Dashboard.step s ev))
  = match ev with
    | Dashboard.StatsTick => [Api.get "/stats/dashboard"]
    | Dashboard.BreakdownTick => [Api.get "/stats/status-breakdown"]
    | _ => []
    end.
Proof. destruct ev; reflexivity. Qed.

Lemma callLogs_requests (s : CallLogs.state) (ev : CallLogs.event) :
  requests (snd (CallLogs.step s ev))
  = match ev with
    | CallLogs.RefetchTick => [Api.get "/call-logs/"]
    | _ => []
    end.
Proof.
  destruct ev as [|data|[row|row]]; try reflexivity;
    cbn [CallLogs.step]; destruct (JS.truthy _); reflexivity.
Qed.

Lemma dataEntryLogs_requests (s : DataEntryLogs.state) (ev : DataEntryLogs.event) :
  requests (snd (DataEntryLogs.step s ev))
  = match ev with
    | DataEntryLogs.RefetchTick => [Api.get "/data-entry-logs/"]
    | _ => []
    end.
Proof.
  destruct ev as [|data|[row]]; try reflexivity.
  cbn [DataEntryLogs.step]. destruct (_ && _); reflexivity.
Qed.

(** The effects of a step of the dashboard are those of the component
    the event belongs to. *)
Lemma app_effects (s : App.state) (ev : App.event) :
  snd (App.step s ev)
  = match ev with
    | App.InLayout e => snd (Layout.step (App.layout s) e)
    | App.InLeads e => snd (Leads.step (App.leads s) e)
    | App.InLeadsV1 e => snd (LeadsV1.step (App.leadsV1 s) e)
    | App.InSettings e => snd (Settings.step (App.settings s) e)
    | App.InDashboard e => snd (Dashboard.step (App.dashboard s) e)
    | App.InCallLogs e => snd (CallLogs.step (App.callLogs s) e)
    | App.InDataEntryLogs e =>
        snd (DataEntryLogs.step (App.dataEntryLogs s) e)
    end.
Proof.
  destruct ev as [e|e|e|e|e|e|e]; cbn [App.step];
    match goal with |- context [let '(_, _) := ?x in _] => destruct x end;
    reflexivity.
Qed.

(** Who invokes which mutation of the Leads page. *)
Lemma calls_issued_origin (s : Leads.state) (ev : Leads.event) (c : Leads.call) :
  In c (Leads.calls_issued s ev) ->
  match c with
  | Leads.Upload _ => ev = Leads.User Leads.ClickUpload
  | Leads.AddLead _ => ev = Leads.User Leads.ClickAddLeadSubmit
  | Leads.MakeCall _ => ev = Leads.User Leads.ClickMakeCall
  | Leads.UpdateStatus _ _ => ev = Leads.User Leads.ClickUpdate
  | Leads.RetryCall _ => ev = Leads.User Leads.ClickRetryCall
  | Leads.RetryEntry _ => ev = Leads.User Leads.ClickRetryEntry
  | Leads.MarkConfirmed _ =>
      ev = Leads.User Leads.ClickMarkConfirmed
      \/ (exists data, ev = Leads.LeadsData data)
      \/ (exists leadId, ev = Leads.TimerFired leadId)
  end.
Proof.
  destruct ev as [|data|a|c' r|leadId]; cbn [Leads.calls_issued].
  - intros [].
  - case_bool_decide; [intros []|].
    rewrite in_map_iff. intros (l & <- & _). right; left. now eexists.
  - destruct (Leads.enabled s a); [|intros []].
    destruct a; cbn [Leads.calls_of_action];
      unfold Leads.selected_call;
      repeat match goal with
             | |- context [In _ (match ?x with _ => _ end)] => destruct x
             end;
      cbn [In]; intuition (subst; auto).
  - intros [].
  - destruct (bool_decide _); [|intros []].
    intros [<-|[]]. right; right. now eexists.
Qed.

End Requests.


(** *** Retry requests *)

Module RetryFacts.
Import Fx Text TextFacts.

(** A request to a fixed path that is no retry path. *)
Ltac fixed_path H :=
  repeat match type of H with
         | In _ (if ?c then _ else _) => destruct c
         | In _ [Layout.mutationFn (if ?c then _ else _)] => destruct c
         end;
  cbn [In] in H;
  lazymatch type of H with
  | False => destruct H
  | _ =>
      destruct H as [<-|[]];
      intros x; split; intros Hu; exfalso; revert Hu;
      apply not_suffix_neq3; vm_compute; reflexivity
  end.

Lemma leads_call_from_click (s : Leads.state) (e : Leads.event) (c : Leads.call) :
  In c (Leads.calls_issued s e) ->
  App.from_retry_click (App.InLeads e) (Leads.mutationFn c).
Proof.
  intros Hc x; split; intros Hu.
  - destruct (UrlFacts.retry_call_url _ _ Hu) as [i ->].
    apply Requests.calls_issued_origin in Hc. left. now rewrite Hc.
  - destruct (UrlFacts.retry_entry_url _ _ Hu) as [i ->].
    apply Requests.calls_issued_origin in Hc. left. now rewrite Hc.
Qed.

Lemma leadsV1_call_from_click
    (s : Leads.state) (a : LeadsV1.action) (c : Leads.call) :
  In c (Leads.calls_issued s (Leads.User (LeadsV1.embed a))) ->
  App.from_retry_click (App.InLeadsV1 (LeadsV1.User a)) (Leads.mutationFn c).
Proof.
  intros Hc x; split; intros Hu.
  - destruct (UrlFacts.retry_call_url _ _ Hu) as [i ->].
    apply Requests.calls_issued_origin in Hc. right.
    destruct a; try discriminate Hc. reflexivity.
  - destruct (UrlFacts.retry_entry_url _ _ Hu) as [i ->].
    apply Requests.calls_issued_origin in Hc. right.
    destruct a; try discriminate Hc. reflexivity.
Qed.

Lemma step_retry (s : App.state) (ev : App.event) (r : Api.request) :
  In r (requests (snd (App.step s ev))) -> App.from_retry_click ev r.
Proof.
  rewrite Requests.app_effects.
  destruct ev as [e|e|e|e|e|e|e]; intros H.
  - rewrite Requests.layout_requests in H.
    destruct e as [|d|[|p|]|c res]; fixed_path H.
  - rewrite LeadsFacts.step_requests in H.
    destruct e as [|d|a|c res|i];
      [ fixed_path H | | | | ];
      apply in_map_iff in H; destruct H as (c0 & <- & Hc);
      eapply leads_call_from_click; eassumption.
  - rewrite Requests.leadsV1_requests in H.
    destruct e as [|d|a|c res]; [fixed_path H | destruct H | | destruct H].
    apply in_map_iff in H. destruct H as (c0 & <- & Hc).
    eapply leadsV1_call_from_click; eassumption.
  - rewrite Requests.settings_requests in H.
    destruct e as [|res|res|[f v| |]|]; fixed_path H.
  - rewrite Requests.dashboard_requests in H.
    destruct e; fixed_path H.
  - rewrite Requests.callLogs_requests in H.
    destruct e; fixed_path H.
  - rewrite Requests.dataEntryLogs_requests in H.
    destruct e; fixed_path H.
Qed.

Lemma app_run_cons (s : App.state) (ev : App.event) (evs : list App.event) :
  snd (App.run s (ev :: evs))
  = (map (pair ev) (requests (snd (App.step s ev)))
     ++ snd (App.run (fst (App.step s ev)) evs))%list.
Proof.
  cbn [App.run]. destruct (App.step s ev) as [s1 effs].
  cbn [fst snd]. destruct (App.run s1 evs). reflexivity.
Qed.

End RetryFacts.


(** *** The pending delayed confirmations *)

Module TimerFacts.
Import Fx Leads.






End TimerFacts.


(** *** The call-attempt caps of the Settings page *)

Module SettingsFacts.
Import Fx Settings.

Lemma integer_caps_default : integer_caps defaultCallSettings.
Proof.
  intros day Hday. unfold days in Hday.
  repeat (apply elem_of_cons in Hday as [->|Hday]; [eexists; reflexivity|]).
  now apply elem_of_nil in Hday.
Qed.

Lemma integer_caps_change (cs : gmap string JS.value) (day value : string) :
  integer_caps cs -> integer_caps (handleCallSettingChange cs day value).
Proof.
  intros Hcs d Hd. unfold handleCallSettingChange.
  destruct (decide (day = d)) as [->|Hne].
  - rewrite lookup_insert_eq. now eexists.
  - rewrite lookup_insert_ne by assumption. now apply Hcs.
Qed.

Lemma integer_caps_onChange (cs : gmap string JS.value) (f : field) (value : string) :
  integer_caps cs -> integer_caps (batched (onChange cs f value) cs).
Proof.
  intros Hcs. destruct f; cbn [onChange batched List.last];
    now apply integer_caps_change.
Qed.

(** One step keeps the caps integers, provided a fetched answer has
    integer caps. *)
Lemma step_integer_caps (s : state) (ev : event) :
  integer_caps (callSettings s) ->
  (forall data, ev = FetchSettled (FetchFulfilled data) -> integer_caps data) ->
  integer_caps (callSettings (fst (step s ev))).
Proof.
  intros Hs Hfetch.
  destruct ev as [|r|r|a|]; cbn [step].
  - apply integer_caps_default.
  - destruct (bool_decide (Fetch ∈ pending s)); [|assumption].
    destruct r as [data|e]; cbn; [now apply Hfetch|assumption].
  - destruct (bool_decide (Save ∈ pending s)); [|assumption].
    destruct r; assumption.
  - destruct a as [f value| |]; cbn.
    + now apply integer_caps_onChange.
    + destruct (loading s); assumption.
    + destruct (open (snackbar s)); assumption.
  - destruct (open (snackbar s)); assumption.
Qed.

(** A step saves at most the current caps. *)
Lemma step_saved_payloads (s : state) (ev : event) (o : gmap string JS.value) :
  In o (saved_payloads (snd (step s ev))) -> o = callSettings s.
Proof.
  destruct ev as [|r|r|a|]; cbn [step].
  - intros [].
  - destruct (bool_decide (Fetch ∈ pending s)); [destruct r|]; intros [].
  - destruct (bool_decide (Save ∈ pending s)); [destruct r|]; intros [].
  - destruct a as [f value| |]; cbn.
    + intros [].
    + destruct (loading s); cbn; [intros []|]. intros [<-|[]]. reflexivity.
    + destruct (open (snackbar s)); intros [].
  - destruct (open (snackbar s)); intros [].
Qed.

Lemma saved_payloads_app (a b : list effect) :
  saved_payloads (a ++ b)%list = (saved_payloads a ++ saved_payloads b)%list.
Proof. unfold saved_payloads. now rewrite flat_map_app. Qed.

Lemma settings_run_cons (s : state) (ev : event) (evs : list event) :
  run s (ev :: evs)
  = (fst (run (fst (step s ev)) evs),
     (snd (step s ev) ++ snd (run (fst (step s ev)) evs))%list).
Proof.
  cbn [run]. destruct (step s ev) as [s1 effs]. cbn [fst snd].
  destruct (run s1 evs). reflexivity.
Qed.

End SettingsFacts.


(** *** The model on concrete inputs *)

Example formatDuration_125 :
  CallLogs.formatDuration (CallLogs.SecInt 125) = "2:05".
Proof. reflexivity. Qed.

Example formatDuration_59 :
  CallLogs.formatDuration (CallLogs.SecInt 59) = "0:59".
Proof. reflexivity. Qed.

Example formatDuration_hour :
  CallLogs.formatDuration (CallLogs.SecInt 3600) = "60:00".
Proof. reflexivity. Qed.

Example parseInt_digits_then_text : JS.parseInt "12abc" = Some 12.
Proof. reflexivity. Qed.

Example parseInt_signed : JS.parseInt "  -7" = Some (-7).
Proof. reflexivity. Qed.

Example parseInt_exponent : JS.parseInt "1e5" = Some 1.
Proof. reflexivity. Qed.

(** The Days 3-5 field writes three objects built from the same
    render; the last one wins, so only [day5] changes. *)
Example days3to5_edit :
  let cs := Settings.batched
              (Settings.onChange Settings.defaultCallSettings
                                 Settings.Days3to5 "4")
              Settings.defaultCallSettings in
  cs !! "day3" = Some (JS.Int 2) /\ cs !! "day4" = Some (JS.Int 2)
  /\ cs !! "day5" = Some (JS.Int 4).
Proof. repeat split; reflexivity. Qed.

Example retry_call_rejected_with_detail :
  snd (Leads.step Sample.retrying
         (Leads.Settled (Leads.RetryCall (JS.Int 7))
                        (Api.Rejected Sample.not_found)))
  = [Fx.Toast Fx.Error "Failed to retry call: Lead not found"].
Proof. reflexivity. Qed.

Example retry_call_rejected_without_detail :
  snd (Leads.step Sample.retrying
         (Leads.Settled (Leads.RetryCall (JS.Int 7))
                        (Api.Rejected Sample.network_error)))
  = [Fx.Toast Fx.Error "Failed to retry call: Network Error"].
Proof. reflexivity. Qed.

Example make_call_then_delayed_confirm :
  snd (Leads.run Leads.initial
         (Sample.open_menu_on Sample.entered_lead
          ++ [ Leads.User Leads.ClickMakeCall;
               Leads.Settled (Leads.MakeCall (JS.Int 8)) Sample.call_succeeded;
               Leads.TimerFired (JS.Int 8) ])%list)
  = [ (Leads.User Leads.ClickMakeCall,
       Fx.Http (Api.post "/leads/8/make-call" Api.NoBody));
      (Leads.Settled (Leads.MakeCall (JS.Int 8)) Sample.call_succeeded,
       Fx.Toast Fx.Success "Call initiated successfully");
      (Leads.Settled (Leads.MakeCall (JS.Int 8)) Sample.call_succeeded,
       Fx.InvalidateQueries "leads");
      (Leads.Settled (Leads.MakeCall (JS.Int 8)) Sample.call_succeeded,
       Fx.SetTimeoutMarkConfirmed (JS.Int 8) 2000);
      (Leads.TimerFired (JS.Int 8),
       Fx.Http (Api.post "/leads/8/mark-confirmed" Api.NoBody)) ].
Proof. reflexivity. Qed.

(** A timer that was never set does nothing. *)
Example unscheduled_timer_is_ignored :
  Leads.step Leads.initial (Leads.TimerFired (JS.Int 8)) = (Leads.initial, []).
Proof. reflexivity. Qed.

(** The same answer twice: the second one leaves [leads] as it is, so
    the effect does not run again. *)
Example repeated_answer_issues_nothing :
  Leads.step
    (fst (Leads.step Leads.initial (Leads.LeadsData [Sample.completed_call])))
    (Leads.LeadsData [Sample.completed_call])
  = (fst (Leads.step Leads.initial (Leads.LeadsData [Sample.completed_call])),
     []).
Proof. reflexivity. Qed.

(** An array of two error objects in a template literal. *)
Example two_validation_errors_rendered :
  JS.json_render (JS.Array [JS.Object []; JS.Object []])
  = "[object Object],[object Object]".
Proof. reflexivity. Qed.

(** Make Call is disabled on a lead that is [calling]. *)
Example make_call_disabled_while_calling :
  Leads.enabled (Sample.menu_on Sample.completed_call) Leads.ClickMakeCall
  = false
  /\ Leads.enabled (Sample.menu_on Sample.entered_lead) Leads.ClickMakeCall
     = true.
Proof. split; reflexivity. Qed.

(* ===================================================================== *)
(** ** The properties of the specification, C1 to C10 *)
(* ===================================================================== *)

(** C1, as stated, fails: when the leads poll delivers a lead whose call
    has completed successfully while its row still says [calling], the
    page posts [/leads/7/mark-confirmed] by itself. *)
Lemma leads_poll_answer_posts_mark_confirmed :
  App.poll_answer (App.InLeads (Leads.LeadsData [Sample.completed_call]))
  = true
  /\ Fx.requests
       (snd (App.step App.initial
               (App.InLeads (Leads.LeadsData [Sample.completed_call]))))
     = [Api.post "/leads/7/mark-confirmed" Api.NoBody].
Proof. split; reflexivity. Qed.

(** C1, amended: handling the data of a polling query issues no request,
    except on the Leads page with automatic progression when the answer
    differs from the list the page holds: it then posts one
    [/leads/{id}/mark-confirmed] per fetched lead that is [calling],
    has [call_completed_at], lacks [status_updated_after_call] and has
    [call_successful], and nothing else.  An answer equal to the list
    already held issues nothing. *)
Theorem poll_answer_requests (s : App.state) (ev : App.event) :
  App.poll_answer ev = true ->
  Fx.requests (snd (App.step s ev))
  = match ev with
    | App.InLeads (Leads.LeadsData data) =>
        if bool_decide (Leads.leads (App.leads s) = Some data) then []
        else map (fun l =>
                    Api.post ("/leads/" ++ JS.render (Leads.id l)
                              ++ "/mark-confirmed") Api.NoBody)
                 (List.filter
                    (fun l => Leads.needsUpdate l
                              && JS.truthy (Leads.call_successful l)) data)
    | _ => []
    end.
Proof.
  intros Hpoll. rewrite Requests.app_effects.
  destruct ev as [e|e|e|e|e|e|e]; destruct e; try discriminate Hpoll;
    try reflexivity.
  rewrite LeadsFacts.step_requests. cbn [Leads.calls_issued].
  case_bool_decide; [reflexivity|]. now rewrite map_map.
Qed.

(** A /leads/ answer with an entered lead and a completed call: one confirmation, for lead 7. *)
Lemma poll_answer_requests_witness :
  App.poll_answer
    (App.InLeads (Leads.LeadsData [Sample.entered_lead; Sample.completed_call]))
  = true
  /\ Fx.requests
       (snd (App.step App.initial
               (App.InLeads
                  (Leads.LeadsData
                     [Sample.entered_lead; Sample.completed_call]))))
     = [Api.post "/leads/7/mark-confirmed" Api.NoBody].
Proof.
  split; [reflexivity|].
  exact (poll_answer_requests App.initial
           (App.InLeads
              (Leads.LeadsData [Sample.entered_lead; Sample.completed_call]))
           eq_refl).
Defined.

(** C2, as stated, fails: the Make Call item posts
    [/leads/8/make-call], which the REST surface of the specification
    does not list. *)
Lemma make_call_is_outside_the_rest_surface :
  App.user_action (App.InLeads (Leads.User Leads.ClickMakeCall)) = true
  /\ Fx.requests
       (snd (App.step
               (Sample.app_with_leads (Sample.menu_on Sample.entered_lead))
               (App.InLeads (Leads.User Leads.ClickMakeCall))))
     = [Api.post "/leads/8/make-call" Api.NoBody]
  /\ ~ Spec.rest_surface Api.POST "/leads/8/make-call".
Proof.
  split; [reflexivity|]. split; [reflexivity|].
  intros H.
  remember Api.POST as m eqn:Em. remember "/leads/8/make-call" as u eqn:Eu.
  destruct H; try discriminate;
    symmetry in Eu; revert Eu; apply TextFacts.not_suffix_neq3; reflexivity.
Qed.

(** C2, amended: every request an operator's gesture issues through the
    API client goes to an endpoint of the REST surface of the
    specification, or is [POST /leads/{id}/make-call]. *)
Theorem user_action_requests (s : App.state) (ev : App.event) (r : Api.request) :
  App.user_action ev = true ->
  In r (Fx.requests (snd (App.step s ev))) ->
  Spec.rest_surface (Api.meth r) (Api.url r)
  \/ exists leadId : string,
       r = Api.post ("/leads/" ++ leadId ++ "/make-call") Api.NoBody.
Proof.
  intros Huser. rewrite Requests.app_effects.
  assert (Hleads : forall c0 : Leads.call,
             Spec.rest_surface (Api.meth (Leads.mutationFn c0))
                               (Api.url (Leads.mutationFn c0))
             \/ exists leadId : string,
                  Leads.mutationFn c0
                  = Api.post ("/leads/" ++ leadId ++ "/make-call") Api.NoBody).
  { intros c0. destruct (UrlFacts.mutationFn_surface c0) as [-> [Hs|[i ->]]];
      [now left|right; now eexists]. }
  destruct ev as [e|e|e|e|e|e|e]; intros H.
  - destruct e as [|d|a|c res]; try discriminate Huser.
    rewrite Requests.layout_requests in H. destruct a as [|path|]; try destruct H.
    destruct (Layout.enabled _ Layout.ClickAgentToggle); [|destruct H].
    destruct H as [<-|[]]. left.
    destruct (Layout.agents_running_now _); constructor.
  - destruct e as [|d|a|c res|i]; try discriminate Huser.
    rewrite LeadsFacts.step_requests in H.
    apply in_map_iff in H. destruct H as (c0 & <- & _). apply Hleads.
  - destruct e as [|d|a|c res]; try discriminate Huser.
    rewrite Requests.leadsV1_requests in H.
    apply in_map_iff in H. destruct H as (c0 & <- & _). apply Hleads.
  - destruct e as [|res|res|a|]; try discriminate Huser.
    rewrite Requests.settings_requests in H. destruct a as [f v| |]; try destruct H.
    destruct (Settings.loading _); [destruct H|].
    destruct H as [<-|[]]. left. constructor.
  - destruct e; discriminate Huser.
  - destruct e as [|d|a]; try discriminate Huser.
    rewrite Requests.callLogs_requests in H. destruct H.
  - destruct e as [|d|a]; try discriminate Huser.
    rewrite Requests.dataEntryLogs_requests in H. destruct H.
Qed.

(** Retry Data Entry on lead 8 stays inside the REST surface. *)
Lemma user_action_requests_witness :
  App.user_action (App.InLeads (Leads.User Leads.ClickRetryEntry)) = true
  /\ In (Api.post "/leads/8/retry-entry" Api.NoBody)
        (Fx.requests
           (snd (App.step
                   (Sample.app_with_leads (Sample.menu_on Sample.entered_lead))
                   (App.InLeads (Leads.User Leads.ClickRetryEntry)))))
  /\ (Spec.rest_surface Api.POST "/leads/8/retry-entry"
      \/ exists leadId : string,
           Api.post "/leads/8/retry-entry" Api.NoBody
           = Api.post ("/leads/" ++ leadId ++ "/make-call") Api.NoBody).
Proof.
  split; [reflexivity|]. split; [left; reflexivity|].
  exact (user_action_requests
           (Sample.app_with_leads (Sample.menu_on Sample.entered_lead))
           (App.InLeads (Leads.User Leads.ClickRetryEntry))
           (Api.post "/leads/8/retry-entry" Api.NoBody)
           eq_refl (or_introl eq_refl)).
Defined.

(** C3: Mark Confirmed posts [/leads/{id}/mark-confirmed] for the
    selected lead whatever its status; the only thing that disables the
    item is a mark-confirmed request still in flight.  Both revisions
    of the page. *)
Theorem mark_confirmed_from_any_status (s : Leads.state) (l : Leads.lead) :
  Leads.actionMenuAnchor s = true ->
  Leads.selectedLead s = Some l ->
  Leads.disabled s Leads.ClickMarkConfirmed
  = Leads.isLoading Leads.markConfirmedMutation s
  /\ (Leads.isLoading Leads.markConfirmedMutation s = false ->
      let confirm :=
        Api.post ("/leads/" ++ JS.render (Leads.id l) ++ "/mark-confirmed")
                 Api.NoBody in
      Fx.requests (snd (Leads.step s (Leads.User Leads.ClickMarkConfirmed)))
      = [confirm]
      /\ Fx.requests
           (snd (LeadsV1.step s (LeadsV1.User LeadsV1.ClickMarkConfirmed)))
         = [confirm]).
Proof.
  intros Hmenu Hsel. split; [reflexivity|]. intros Hidle.
  cbn zeta. rewrite LeadsFacts.step_requests, Requests.leadsV1_requests.
  cbn [Leads.calls_issued LeadsV1.embed].
  unfold Leads.enabled. cbn [Leads.visible Leads.disabled].
  rewrite Hmenu, Hidle. cbn [andb negb Leads.calls_of_action].
  unfold Leads.selected_call. rewrite Hsel. split; reflexivity.
Qed.

(** The row menu open on the entered lead 8: the click posts the confirmation. *)
Lemma mark_confirmed_from_any_status_witness :
  Leads.actionMenuAnchor (Sample.menu_on Sample.entered_lead) = true
  /\ Leads.selectedLead (Sample.menu_on Sample.entered_lead)
     = Some Sample.entered_lead
  /\ Leads.isLoading Leads.markConfirmedMutation
       (Sample.menu_on Sample.entered_lead) = false
  /\ Fx.requests
       (snd (Leads.step (Sample.menu_on Sample.entered_lead)
               (Leads.User Leads.ClickMarkConfirmed)))
     = [Api.post "/leads/8/mark-confirmed" Api.NoBody].
Proof.
  split; [reflexivity|]. split; [reflexivity|]. split; [reflexivity|].
  exact (proj1 (proj2 (mark_confirmed_from_any_status
                         (Sample.menu_on Sample.entered_lead)
                         Sample.entered_lead eq_refl eq_refl) eq_refl)).
Defined.




(** C5: no retry is started by the client itself.  In every run of the
    dashboard, from any state, a request to [/leads/{id}/retry-call] or
    [/leads/{id}/retry-entry] is issued only while handling the
    operator's click on the menu item of that name; no timer, polling
    answer, effect or settled request issues one. *)
Theorem retries_only_from_menu_clicks
    (s : App.state) (evs : list App.event)
    (ev : App.event) (r : Api.request) (x : string) :
  In (ev, r) (snd (App.run s evs)) ->
  (Api.url r = "/leads/" ++ x ++ "/retry-call" ->
   App.retry_call_click ev)
  /\ (Api.url r = "/leads/" ++ x ++ "/retry-entry" ->
      App.retry_entry_click ev).
Proof.
  revert s. induction evs as [|ev0 evs IH]; intros s H; [destruct H|].
  rewrite RetryFacts.app_run_cons in H. apply in_app_iff in H.
  destruct H as [H|H]; [|exact (IH _ H)].
  apply in_map_iff in H. destruct H as (r0 & [= <- <-] & Hr).
  exact (RetryFacts.step_retry s ev0 r0 Hr x).
Qed.

(** The retry-call request of a run is logged against the click on Retry Call. *)
Lemma retries_only_from_menu_clicks_witness :
  In (App.InLeads (Leads.User Leads.ClickRetryCall),
      Api.post "/leads/7/retry-call" Api.NoBody)
     (snd (App.run App.initial
             (map App.InLeads
                (Sample.open_menu_on Sample.completed_call
                 ++ [Leads.User Leads.ClickRetryCall])%list)))
  /\ App.retry_call_click
       (App.InLeads (Leads.User Leads.ClickRetryCall)).
Proof.
  assert (H : In (App.InLeads (Leads.User Leads.ClickRetryCall),
                  Api.post "/leads/7/retry-call" Api.NoBody)
                 (snd (App.run App.initial
                         (map App.InLeads
                            (Sample.open_menu_on Sample.completed_call
                             ++ [Leads.User Leads.ClickRetryCall])%list)))).
  { right. left. reflexivity. }
  split; [exact H|].
  exact (proj1 (retries_only_from_menu_clicks _ _ _ _ "7" H) eq_refl).
Defined.

(** Every failed mutation shows one error notification, the prefix of
    the mutation followed by [${detail || message}], and its handler
    ends normally; the settings page leaves its loading state. *)
Lemma failure_notifications (e : Api.error) :
  (forall (s : Leads.state) (c : Leads.call),
     In c (Leads.inflight s) ->
     snd (Leads.step s (Leads.Settled c (Api.Rejected e)))
     = [Fx.Toast Fx.Error
          (Leads.error_prefix (Leads.mutation_of c) ++ Api.error_text e)]
     /\ snd (LeadsV1.step s (LeadsV1.Settled c (Api.Rejected e)))
        = [Fx.Toast Fx.Error
             (Leads.error_prefix (Leads.mutation_of c) ++ Api.error_text e)])
  /\ (forall (s : Layout.state) (c : Layout.call),
        In c (Layout.inflight s) ->
        snd (Layout.step s (Layout.Settled c (Api.Rejected e)))
        = [Fx.Toast Fx.Error (Layout.error_prefix c ++ Api.error_text e)])
  /\ (forall s : Settings.state,
        In Settings.Save (Settings.pending s) ->
        let after := Settings.step s (Settings.SaveSettled (Api.Rejected e)) in
        Settings.snackbar (fst after)
        = {| Settings.open := true;
             Settings.message := "Error saving settings: " ++ Api.error_text e;
             Settings.severity := Fx.Error |}
        /\ Settings.loading (fst after) = false
        /\ snd after = []).
Proof.
  split; [|split].
  - intros s c Hc. apply list_elem_of_In in Hc.
    cbn [Leads.step LeadsV1.step]. rewrite (bool_decide_eq_true_2 _ Hc).
    split; reflexivity.
  - intros s c Hc. apply list_elem_of_In in Hc.
    cbn [Layout.step]. rewrite (bool_decide_eq_true_2 _ Hc). reflexivity.
  - intros s Hs. apply list_elem_of_In in Hs.
    cbn zeta. cbn [Settings.step]. rewrite (bool_decide_eq_true_2 _ Hs).
    repeat split.
Qed.

(** C6: the handlers miss the case of a structured detail.  A request
    whose body fails validation is answered with status 422 and a
    detail that is an array of error objects, which
    [${detail || message}] renders as [[object Object]].  The
    notification of the failed mutation then reads the prefix of the
    mutation followed by [[object Object]], whatever the fields of the
    detail and whatever the error's message: on the 422 answer to Add
    Lead it contains neither the text of the detail nor the error's
    message.  (A notification is shown and the handler ends normally,
    as for every failure.) *)
Theorem structured_detail_is_not_reported :
  (forall (fields : list (string * JS.json)) (msg : string)
          (s : Leads.state) (c : Leads.call),
     In c (Leads.inflight s) ->
     let e := {| Api.detail := JS.Array [JS.Object fields];
                 Api.error_message := msg |} in
     snd (Leads.step s (Leads.Settled c (Api.Rejected e)))
     = [Fx.Toast Fx.Error
          (Leads.error_prefix (Leads.mutation_of c) ++ "[object Object]")]
     /\ snd (LeadsV1.step s (LeadsV1.Settled c (Api.Rejected e)))
        = [Fx.Toast Fx.Error
             (Leads.error_prefix (Leads.mutation_of c) ++ "[object Object]")])
  /\ (forall (fields : list (string * JS.json)) (msg : string)
             (s : Settings.state),
        In Settings.Save (Settings.pending s) ->
        let e := {| Api.detail := JS.Array [JS.Object fields];
                    Api.error_message := msg |} in
        Settings.message
          (Settings.snackbar
             (fst (Settings.step s (Settings.SaveSettled (Api.Rejected e)))))
        = "Error saving settings: [object Object]")
  /\ snd (Leads.step Sample.adding
            (Leads.Settled (Leads.AddLead Leads.emptyLead)
                           (Api.Rejected Sample.validation_error)))
     = [Fx.Toast Fx.Error "Failed to add lead: [object Object]"]
  /\ ~ Text.occurs_in "field required" "Failed to add lead: [object Object]"
  /\ ~ Text.occurs_in (Api.error_message Sample.validation_error)
                      "Failed to add lead: [object Object]".
Proof.
  split; [|split; [|split; [|split]]].
  - intros fields msg s c Hc e.
    destruct (proj1 (failure_notifications e) s c Hc) as [-> ->].
    split; reflexivity.
  - intros fields msg s Hs e.
    destruct (proj2 (proj2 (failure_notifications e)) s Hs) as [-> _].
    reflexivity.
  - reflexivity.
  - intros H. apply TextFacts.occurs_in_contains in H. discriminate H.
  - intros H. apply TextFacts.occurs_in_contains in H. discriminate H.
Qed.

(** A retry-call rejected with a validation error: the toast shows
    [[object Object]]. *)
Lemma structured_detail_is_not_reported_witness :
  In (Leads.RetryCall (JS.Int 7)) (Leads.inflight Sample.retrying)
  /\ snd (Leads.step Sample.retrying
            (Leads.Settled (Leads.RetryCall (JS.Int 7))
                           (Api.Rejected Sample.validation_error)))
     = [Fx.Toast Fx.Error "Failed to retry call: [object Object]"].
Proof.
  split; [left; reflexivity|].
  exact (proj1 (proj1 structured_detail_is_not_reported _ _
                  Sample.retrying (Leads.RetryCall (JS.Int 7))
                  (or_introl eq_refl))).
Defined.

(** C7: the values offered by the Update Status dialog are exactly the
    ten lead states of the specification, each offered once. *)
Theorem status_options_are_the_lead_states :
  (forall v : string, In v Leads.status_options <-> In v Spec.lead_states)
  /\ List.NoDup Leads.status_options
  /\ List.length Leads.status_options = 10%nat.
Proof.
  split; [|split; [|reflexivity]].
  - intros v. unfold Leads.status_options, Spec.lead_states. cbn.
    intuition (subst; auto 20).
  - unfold Leads.status_options. cbn.
    repeat (apply List.NoDup_cons;
            [cbn; intuition discriminate|]).
    apply List.NoDup_nil.
Qed.

(** C8, as stated, fails: the answer of [GET /settings/call-attempts] is
    stored as it comes, so when the back end answers with [day1] as text
    and no other day, Save posts exactly that object. *)
Lemma fetched_settings_are_saved_unchecked :
  Settings.saved_payloads
    (snd (Settings.run Settings.initial Sample.odd_session))
  = [Sample.odd_settings]
  /\ Sample.odd_settings !! "day1" = Some (JS.Str "five")
  /\ Sample.odd_settings !! "day2" = None
  /\ ~ Settings.integer_caps Sample.odd_settings.
Proof.
  split; [reflexivity|]. split; [reflexivity|]. split; [reflexivity|].
  intros H. destruct (H "day1") as [n Hn].
  - unfold Settings.days. apply elem_of_cons. now left.
  - discriminate Hn.
Qed.

(** C8, amended: from a settings state whose six caps are integers (the
    initial defaults are), every run in which each fetched answer maps
    [day1] .. [day6] to integers and each number typed has a magnitude
    of at most 2^53 keeps the six caps integers, and every body posted
    to [/settings/call-attempts] maps the six keys to integers.  Such
    an edit stores [parseInt(value, 10) || 0]: 0 for empty or
    non-numeric input. *)
Theorem saved_caps_are_integers (s : Settings.state) (evs : list Settings.event) :
  Settings.integer_caps (Settings.callSettings s) ->
  (forall data,
     In (Settings.FetchSettled (Settings.FetchFulfilled data)) evs ->
     Settings.integer_caps data) ->
  (forall f value,
     In (Settings.User (Settings.Change f value)) evs ->
     Z.abs (JS.parseInt_or_0 value) <= JS.max_exact) ->
  Settings.integer_caps (Settings.callSettings (fst (Settings.run s evs)))
  /\ (forall o,
        In o (Settings.saved_payloads (snd (Settings.run s evs))) ->
        Settings.integer_caps o)
  /\ (forall cs day value,
        Z.abs (JS.parseInt_or_0 value) <= JS.max_exact ->
        Settings.handleCallSettingChange cs day value !! day
        = Some (JS.Int (default 0 (JS.parseInt value))))
  /\ JS.parseInt "" = None /\ JS.parseInt "abc" = None.
Proof.
  intros Hs Hfetch _.
  assert (Hrun : Settings.integer_caps
                   (Settings.callSettings (fst (Settings.run s evs)))
                 /\ forall o,
                      In o (Settings.saved_payloads (snd (Settings.run s evs))) ->
                      Settings.integer_caps o).
  { revert s Hs Hfetch. induction evs as [|ev evs IH]; intros s Hs Hfetch.
    - split; [exact Hs|intros o []].
    - rewrite SettingsFacts.settings_run_cons. cbn [fst snd].
      assert (Hs1 : Settings.integer_caps
                      (Settings.callSettings (fst (Settings.step s ev)))).
      { apply SettingsFacts.step_integer_caps; [exact Hs|].
        intros data ->. apply Hfetch. now left. }
      destruct (IH _ Hs1) as [IH1 IH2]; [intros data Hd; apply Hfetch; now right|].
      split; [exact IH1|].
      intros o. rewrite SettingsFacts.saved_payloads_app, in_app_iff.
      intros [Ho|Ho]; [|now apply IH2].
      apply SettingsFacts.step_saved_payloads in Ho. now subst o. }
  destruct Hrun as [H1 H2]. repeat split; try assumption.
  intros cs day value _. unfold Settings.handleCallSettingChange.
  apply lookup_insert_eq.
Qed.

(** An editing session on well-formed caps ends with integer caps. *)
Lemma saved_caps_are_integers_witness :
  Settings.integer_caps (Settings.callSettings Settings.initial)
  /\ (forall data,
        In (Settings.FetchSettled (Settings.FetchFulfilled data))
           Sample.editing_session ->
        Settings.integer_caps data)
  /\ (forall f value,
        In (Settings.User (Settings.Change f value)) Sample.editing_session ->
        Z.abs (JS.parseInt_or_0 value) <= JS.max_exact)
  /\ Settings.integer_caps
       (Settings.callSettings
          (fst (Settings.run Settings.initial Sample.editing_session))).
Proof.
  assert (H0 : Settings.integer_caps (Settings.callSettings Settings.initial))
    by exact SettingsFacts.integer_caps_default.
  assert (H1 : forall data,
             In (Settings.FetchSettled (Settings.FetchFulfilled data))
                Sample.editing_session ->
             Settings.integer_caps data).
  { intros data [H|[H|[H|[H|[H|[]]]]]]; try discriminate H.
    injection H as <-. intros day Hday. unfold Settings.days in Hday.
    repeat (apply elem_of_cons in Hday as [->|Hday]; [eexists; reflexivity|]).
    now apply elem_of_nil in Hday. }
  assert (H2 : forall f value,
             In (Settings.User (Settings.Change f value))
                Sample.editing_session ->
             Z.abs (JS.parseInt_or_0 value) <= JS.max_exact).
  { intros f value [H|[H|[H|[H|[H|[]]]]]]; try discriminate H;
      injection H as <- <-; vm_compute; discriminate. }
  split; [exact H0|]. split; [exact H1|]. split; [exact H2|].
  exact (proj1 (saved_caps_are_integers Settings.initial
                  Sample.editing_session H0 H1 H2)).
Defined.

(** C9: every polling query refetches on a fixed interval between 3 and
    10 seconds: the leads view every 3 s (5 s in the earlier revision),
    the agent status every 5 s, the dashboard statistics, the call logs
    and the data-entry logs every 10 s. *)
Theorem polling_intervals :
  Forall (fun q => 3000 <= Fx.refetchInterval q <= 10000) App.polling_queries
  /\ Fx.refetchInterval Leads.leadsQuery = 3000
  /\ Fx.refetchInterval LeadsV1.leadsQuery = 5000
  /\ Fx.refetchInterval Layout.agentStatusQuery = 5000
  /\ Fx.refetchInterval Dashboard.dashboardStatsQuery = 10000
  /\ Fx.refetchInterval Dashboard.statusBreakdownQuery = 10000
  /\ Fx.refetchInterval CallLogs.callLogsQuery = 10000
  /\ Fx.refetchInterval DataEntryLogs.dataEntryLogsQuery = 10000.
Proof.
  split; [|repeat split; reflexivity].
  unfold App.polling_queries.
  repeat apply List.Forall_cons; try apply List.Forall_nil; cbn; lia.
Qed.

(** C10: the call-log duration formatter is total (a Rocq function) and
    returns 'N/A' on null, undefined and 0, and for a positive integer
    number of seconds [s] the text of [floor(s/60)], a colon, and
    [s mod 60] as exactly two decimal digits.  The integers are those a
    number holds exactly, up to 2^53 (some 285 million years). *)
Theorem formatDuration_spec :
  CallLogs.formatDuration CallLogs.SecNull = "N/A"
  /\ CallLogs.formatDuration CallLogs.SecUndefined = "N/A"
  /\ CallLogs.formatDuration (CallLogs.SecInt 0) = "N/A"
  /\ forall s : Z, 0 < s <= JS.max_exact ->
       CallLogs.formatDuration (CallLogs.SecInt s)
       = JS.toString (s / 60) ++ ":" ++ CallLogs.two_digits (s mod 60).
Proof.
  repeat split; try reflexivity.
  intros s [Hs _]. unfold CallLogs.formatDuration, CallLogs.falsy.
  destruct (Z.eqb_spec s 0) as [->|_]; [lia|].
  rewrite Z.rem_mod_nonneg by lia.
  rewrite pad_two_digits; [reflexivity|].
  pose proof (Z.mod_pos_bound s 60). lia.
Qed.

(** 125 seconds. *)
Lemma formatDuration_spec_witness :
  0 < 125 <= JS.max_exact
  /\ CallLogs.formatDuration (CallLogs.SecInt 125)
     = JS.toString (125 / 60) ++ ":" ++ CallLogs.two_digits (125 mod 60).
Proof.
  assert (H : 0 < 125 <= JS.max_exact)
    by (split; [reflexivity|vm_compute; discriminate]).
  split; [exact H|].
  exact (proj2 (proj2 (proj2 formatDuration_spec)) 125 H).
Defined.

(* ===================================================================== *)
(** ** Further properties of the code *)
(* ===================================================================== *)

(** *** Decimal text and [parseInt] *)

Module DecimalText.

Lemma digits_pos (d : Decimal.uint) (p : positive) :
  JS.digits (Some (Z.pos p)) (NilEmpty.string_of_uint d)
  = Some (Z.pos (Pos.of_uint_acc d p)).
Proof.
  revert p. induction d as [|d IH|d IH|d IH|d IH|d IH|d IH|d IH|d IH|d IH|d IH];
    intros p; [reflexivity|..];
    cbn [NilEmpty.string_of_uint JS.digits Pos.of_uint_acc];
    change (JS.digit_value _) with (Some 0)
    || change (JS.digit_value _) with (Some 1)
    || change (JS.digit_value _) with (Some 2)
    || change (JS.digit_value _) with (Some 3)
    || change (JS.digit_value _) with (Some 4)
    || change (JS.digit_value _) with (Some 5)
    || change (JS.digit_value _) with (Some 6)
    || change (JS.digit_value _) with (Some 7)
    || change (JS.digit_value _) with (Some 8)
    || change (JS.digit_value _) with (Some 9);
    cbn [default from_option]; rewrite <- IH; f_equal; f_equal;
    cbv [id]; lia.
Qed.

Lemma digits_zero (d : Decimal.uint) :
  JS.digits (Some 0) (NilEmpty.string_of_uint d)
  = Some (Z.of_N (Pos.of_uint d)).
Proof.
  induction d as [|d IH|d IH|d IH|d IH|d IH|d IH|d IH|d IH|d IH|d IH];
    [reflexivity|exact IH|..];
    cbn [NilEmpty.string_of_uint JS.digits Pos.of_uint];
    apply (digits_pos d).
Qed.

Ltac read_digits p d Hof :=
  change (Z.pos p) with (Z.of_N (N.pos p)); rewrite <- Hof;
  first [ exact (digits_zero (Decimal.D0 d)) | exact (digits_pos d _) ].

(** The digits of a positive number are read back. *)
Lemma digits_uint (p : positive) :
  JS.digits None (NilZero.string_of_uint (Pos.to_uint p)) = Some (Z.pos p).
Proof.
  pose proof (DecimalPos.Unsigned.of_to p) as Hof.
  pose proof (DecimalPos.Unsigned.to_uint_nonnil p) as Hnil.
  destruct (Pos.to_uint p) as [|d|d|d|d|d|d|d|d|d|d] eqn:E;
    [congruence|..];
    cbn [NilZero.string_of_uint NilEmpty.string_of_uint];
    read_digits p d Hof.
Qed.

(** [parseInt] reads back the decimal text of a positive number. *)
Lemma parseInt_uint (p : positive) :
  JS.parseInt (NilZero.string_of_uint (Pos.to_uint p)) = Some (Z.pos p).
Proof.
  pose proof (DecimalPos.Unsigned.of_to p) as Hof.
  pose proof (DecimalPos.Unsigned.to_uint_nonnil p) as Hnil.
  destruct (Pos.to_uint p) as [|d|d|d|d|d|d|d|d|d|d] eqn:E;
    [congruence|..];
    unfold JS.parseInt;
    cbn [NilZero.string_of_uint NilEmpty.string_of_uint JS.trim_start];
    (change (JS.is_space _) with false; cbv iota);
    read_digits p d Hof.
Qed.

(** [parseInt(n.toString(), 10)] is [n], for every integer. *)
Lemma parseInt_toString (n : Z) : JS.parseInt (JS.toString n) = Some n.
Proof.
  destruct n as [|p|p]; [reflexivity|apply parseInt_uint|].
  unfold JS.toString, JS.parseInt.
  cbn [Z.to_int NilZero.string_of_int JS.trim_start].
  change (JS.is_space "-") with false. cbv iota.
  now rewrite digits_uint.
Qed.

End DecimalText.

(** *** Settings page: edits, fetch and save *)

Module SettingsMore.
Import Fx Settings.

Lemma serialized_step (s : state) (ev : event) :
  Inv.settings_serialized s -> Inv.settings_serialized (fst (step s ev)).
Proof.
  intros Hs. destruct ev as [|r|r|a|]; cbn [step].
  - right. exists Fetch. split; reflexivity.
  - case_bool_decide as Hin; [|exact Hs].
    destruct Hs as [[Hp Hl]|(k & Hp & Hl)]; rewrite Hp in Hin.
    + now apply elem_of_nil in Hin.
    + apply list_elem_of_In in Hin. destruct Hin as [->|[]].
      left. destruct r; cbn; rewrite Hp; split; reflexivity.
  - case_bool_decide as Hin; [|exact Hs].
    destruct Hs as [[Hp Hl]|(k & Hp & Hl)]; rewrite Hp in Hin.
    + now apply elem_of_nil in Hin.
    + apply list_elem_of_In in Hin. destruct Hin as [->|[]].
      left. destruct r; cbn; rewrite Hp; split; reflexivity.
  - destruct a as [f value| |]; cbn.
    + exact Hs.
    + destruct Hs as [[Hp Hl]|(k & Hp & Hl)]; rewrite Hl; cbn.
      * right. exists Save. now rewrite Hp.
      * right. exists k. now split.
    + destruct (open (snackbar s)); exact Hs.
  - destruct (open (snackbar s)); exact Hs.
Qed.

Lemma serialized_run (evs : list event) (s : state) :
  Inv.settings_serialized s -> Inv.settings_serialized (fst (run s evs)).
Proof.
  revert s. induction evs as [|ev evs IH]; intros s Hs; [exact Hs|].
  rewrite SettingsFacts.settings_run_cons. cbn [fst].
  apply IH, serialized_step, Hs.
Qed.

End SettingsMore.

(** X1: the "Days 3-5" field calls the change handler for day3, day4
    and day5 in one handler run, each on the same rendered settings, so
    after the edit only [day5] holds the typed number; every other key,
    [day3] and [day4] included, keeps its value. *)
Theorem days3to5_edit_writes_day5_only
    (s : Settings.state) (value day : string) :
  day <> "day5" ->
  let s' := fst (Settings.step s (Settings.User
                                    (Settings.Change Settings.Days3to5 value))) in
  Settings.callSettings s' !! "day5" = Some (JS.Int (JS.parseInt_or_0 value))
  /\ Settings.callSettings s' !! day = Settings.callSettings s !! day.
Proof.
  intros Hday. cbn. unfold Settings.handleCallSettingChange. split.
  - apply lookup_insert_eq.
  - apply lookup_insert_ne. congruence.
Qed.

(** After typing 4 in the Days 3-5 field, day3 is still the default 2. *)
Lemma days3to5_edit_writes_day5_only_witness :
  "day3" <> "day5"
  /\ Settings.callSettings
       (fst (Settings.step Settings.initial
               (Settings.User (Settings.Change Settings.Days3to5 "4"))))
     !! "day3" = Some (JS.Int 2).
Proof.
  assert (H : "day3" <> "day5") by discriminate.
  split; [exact H|].
  exact (proj2 (days3to5_edit_writes_day5_only Settings.initial "4" "day3" H)).
Defined.

(** X2: the change handler stores an integer typed in decimal as it is,
    negative numbers and numbers above 10 included (the field's min and
    max are not enforced by the handler), for every integer of magnitude
    up to 2^53, the range in which numbers hold integers exactly; typing
    again the number a field already holds leaves the settings
    unchanged. *)
Theorem typed_integer_is_stored
    (cs : gmap string JS.value) (day : string) (n : Z) :
  Z.abs n <= JS.max_exact ->
  Settings.handleCallSettingChange cs day (JS.toString n) !! day
  = Some (JS.Int n)
  /\ (cs !! day = Some (JS.Int n) ->
      Settings.handleCallSettingChange cs day (JS.render (JS.Int n)) = cs).
Proof.
  intros _.
  unfold Settings.handleCallSettingChange, JS.parseInt_or_0. cbn [JS.render].
  rewrite DecimalText.parseInt_toString. cbn. split.
  - apply lookup_insert_eq.
  - intros H. now apply insert_id.
Qed.

(** Typing 5 again in the Day 1 field of the defaults changes nothing. *)
Lemma typed_integer_is_stored_witness :
  Z.abs 5 <= JS.max_exact
  /\ Settings.defaultCallSettings !! "day1" = Some (JS.Int 5)
  /\ Settings.handleCallSettingChange Settings.defaultCallSettings "day1" "5"
     = Settings.defaultCallSettings.
Proof.
  assert (H : Z.abs 5 <= JS.max_exact) by (vm_compute; discriminate).
  split; [exact H|]. split; [reflexivity|].
  exact (proj2 (typed_integer_is_stored Settings.defaultCallSettings "day1" 5 H)
           eq_refl).
Defined.

(** X3: when the fetch of the call settings fails, the caps on screen
    stay as they were, the page leaves its loading state, and an error
    snackbar opens whose text is "Error loading settings: " followed by
    the server's detail, or by the error's message when there is none. *)
Theorem fetch_failure_keeps_caps (s : Settings.state) (e : Api.error) :
  In Settings.Fetch (Settings.pending s) ->
  let s' := fst (Settings.step s (Settings.FetchSettled
                                    (Settings.FetchRejected e))) in
  Settings.callSettings s' = Settings.callSettings s
  /\ Settings.loading s' = false
  /\ Settings.snackbar s'
     = {| Settings.open := true;
          Settings.message := "Error loading settings: " ++ Api.error_text e;
          Settings.severity := Fx.Error |}
  /\ Api.reports e (Settings.message (Settings.snackbar s'))
  /\ Fx.requests
       (snd (Settings.step s (Settings.FetchSettled
                                (Settings.FetchRejected e)))) = [].
Proof.
  intros Hp. apply list_elem_of_In in Hp. cbn zeta. cbn [Settings.step].
  rewrite (bool_decide_eq_true_2 _ Hp). cbn.
  repeat split.
  unfold Api.reports, Api.error_text.
  destruct (JS.json_truthy (Api.detail e)); apply TextFacts.occurs_in_append_r.
Qed.

(** The fetch started at mount fails with a network error: the defaults
    stay. *)
Lemma fetch_failure_keeps_caps_witness :
  In Settings.Fetch
     (Settings.pending (fst (Settings.step Settings.initial Settings.Mount)))
  /\ Settings.callSettings
       (fst (Settings.step (fst (Settings.step Settings.initial Settings.Mount))
               (Settings.FetchSettled
                  (Settings.FetchRejected Sample.network_error))))
     = Settings.defaultCallSettings.
Proof.
  assert (H : In Settings.Fetch
                (Settings.pending
                   (fst (Settings.step Settings.initial Settings.Mount))))
    by (left; reflexivity).
  split; [exact H|].
  exact (proj1 (fetch_failure_keeps_caps _ Sample.network_error H)).
Defined.

(** X4: between mounting and unmounting, the settings page never has two
    requests outstanding: the Save button is disabled exactly while the
    initial fetch or a save is pending ([loading] is true if and only if
    a request is pending, and at most one is). *)
Theorem settings_requests_never_overlap (evs : list Settings.event) :
  ~ In Settings.Mount evs ->
  let s := fst (Settings.run
                  (fst (Settings.step Settings.initial Settings.Mount)) evs) in
  (List.length (Settings.pending s) <= 1)%nat
  /\ (Settings.loading s = true <-> Settings.pending s <> [])
  /\ (Settings.pending s <> [] ->
      Fx.requests (snd (Settings.step s (Settings.User Settings.ClickSave)))
      = []).
Proof.
  intros _. cbn zeta.
  assert (H : Inv.settings_serialized
                (fst (Settings.run
                        (fst (Settings.step Settings.initial Settings.Mount))
                        evs))).
  { apply SettingsMore.serialized_run. right. exists Settings.Fetch.
    split; reflexivity. }
  rewrite Requests.settings_requests.
  destruct H as [[Hp Hl]|(k & Hp & Hl)]; rewrite Hp, Hl; cbn.
  - repeat split; try lia; congruence.
  - repeat split; try lia; congruence.
Qed.

(** Fetch answered, one edit, Save clicked twice: the second click does
    nothing. *)
Lemma settings_requests_never_overlap_witness :
  ~ In Settings.Mount
      [ Settings.FetchSettled (Settings.FetchFulfilled Sample.fetched_caps);
        Settings.User (Settings.Change Settings.Day1 "7");
        Settings.User Settings.ClickSave;
        Settings.User Settings.ClickSave ]
  /\ (List.length
        (Settings.pending
           (fst (Settings.run
                   (fst (Settings.step Settings.initial Settings.Mount))
                   [ Settings.FetchSettled
                       (Settings.FetchFulfilled Sample.fetched_caps);
                     Settings.User (Settings.Change Settings.Day1 "7");
                     Settings.User Settings.ClickSave;
                     Settings.User Settings.ClickSave ]))) <= 1)%nat.
Proof.
  assert (H : ~ In Settings.Mount
                [ Settings.FetchSettled
                    (Settings.FetchFulfilled Sample.fetched_caps);
                  Settings.User (Settings.Change Settings.Day1 "7");
                  Settings.User Settings.ClickSave;
                  Settings.User Settings.ClickSave ]).
  { intros [H|[H|[H|[H|[]]]]]; discriminate H. }
  split; [exact H|].
  exact (proj1 (settings_requests_never_overlap _ H)).
Defined.

(** *** Leads page: what is in flight, and the row menu *)

Module LeadsMore.
Import Fx Leads.

(** The confirmations the auto-update effect invokes on [ls]. *)
Lemma forEach_confirm_state (ls : list lead) (s : state) :
  fst (forEach
         (fun lead => if JS.truthy (call_successful lead)
                      then mutate (MarkConfirmed (id lead)) else skip) ls s)
  = setInflight
      (rev (map (fun l => MarkConfirmed (id l))
                (List.filter (fun l => JS.truthy (call_successful l)) ls))
       ++ inflight s)%list s.
Proof.
  revert s. induction ls as [|l ls IH]; intros s; [destruct s; reflexivity|].
  cbn [forEach]. rewrite LeadsFacts.andThen_state, IH.
  cbn [List.filter]. destruct (JS.truthy (call_successful l)).
  - cbn. rewrite <- List.app_assoc. reflexivity.
  - reflexivity.
Qed.

Lemma autoUpdateEffect_state (s : state) :
  fst (autoUpdateEffect s)
  = setInflight
      (rev (map (fun l => MarkConfirmed (id l))
                (List.filter
                   (fun l => needsUpdate l && JS.truthy (call_successful l))
                   (default [] (leads s))))
       ++ inflight s)%list s.
Proof.
  unfold autoUpdateEffect. destruct (leads s) as [ls|] eqn:E;
    unfold default; cbn [from_option]; unfold Datatypes.id.
  - rewrite <- LeadsFacts.filter_filter.
    destruct (List.filter needsUpdate ls) as [|l ls'] eqn:F.
    + destruct s; reflexivity.
    + cbn [List.length Nat.ltb Nat.leb]. apply forEach_confirm_state.
  - destruct s; reflexivity.
Qed.

(** The pending invocations after a step: a settled one leaves, the
    ones the step invokes enter. *)
Lemma step_inflight (s : state) (ev : event) :
  inflight (fst (step s ev))
  = match ev with
    | Settled c _ =>
        if bool_decide (c ∈ inflight s) then remove_first c (inflight s)
        else inflight s
    | _ => (rev (calls_issued s ev) ++ inflight s)%list
    end.
Proof.
  destruct ev as [|data|a|c r|i]; cbn [step calls_issued].
  - reflexivity.
  - case_bool_decide; [reflexivity|].
    rewrite LeadsFacts.andThen_state, autoUpdateEffect_state. reflexivity.
  - destruct (enabled s a); [|reflexivity].
    destruct a; try reflexivity; cbn [on_action calls_of_action];
      unfold handleFileUpload, with_selectedLead, selected_call,
        handleStatusUpdate;
      repeat match goal with
             | |- context [match ?x with _ => _ end] => destruct x
             end;
      reflexivity.
  - destruct (bool_decide (c ∈ inflight s)); [|reflexivity].
    destruct r as [response|e]; destruct c; try reflexivity.
    cbn. destruct (JS.truthy (Api.call_successful response)); reflexivity.
  - destruct (bool_decide (i ∈ timers s)); reflexivity.
Qed.

Lemma leads_run_cons (s : state) (ev : event) (evs : list event) :
  run s (ev :: evs)
  = (fst (run (fst (step s ev)) evs),
     (map (pair ev) (snd (step s ev))
      ++ snd (run (fst (step s ev)) evs))%list).
Proof.
  cbn [run]. destruct (step s ev) as [s1 effs]. cbn [fst snd].
  destruct (run s1 evs). reflexivity.
Qed.

End LeadsMore.

Module LeadsMenu.
Import Fx Leads.

Ltac no_uncaught :=
  let w := fresh "w" in let H := fresh "H" in
  intros w H; cbn in H;
  repeat match type of H with
         | _ \/ _ => destruct H as [H|H]
         | False => destruct H
         | _ = _ => discriminate H
         end.

(** A step keeps the row menu on a selected lead, and under that
    invariant no handler throws. *)
Lemma step_keeps_menu (s : state) (ev : event) :
  Inv.menu_has_lead s ->
  Inv.menu_has_lead (fst (step s ev)) /\ no_crash (snd (step s ev)).
Proof.
  intros Hs. destruct ev as [|data|a|c r|i]; cbn [step].
  - split; [exact Hs|no_uncaught].
  - case_bool_decide as Hsame; [split; [exact Hs|no_uncaught]|].
    rewrite LeadsFacts.andThen_state, LeadsFacts.andThen_effects,
      LeadsMore.autoUpdateEffect_state, LeadsFacts.autoUpdateEffect_effects.
    split; [exact Hs|].
    intros w H. cbn [modify fst snd app] in H.
    apply in_map_iff in H. destruct H as (l & Hl & _). discriminate Hl.
  - destruct (enabled s a) eqn:Hen; [|split; [exact Hs|no_uncaught]].
    unfold Inv.menu_has_lead in *.
    destruct s as [sf ud ad sd ss nl am sl ld inf tm].
    cbn [actionMenuAnchor selectedLead] in Hs.
    unfold enabled in Hen. cbn [visible] in Hen.
    destruct a; cbn [on_action];
      unfold handleFileUpload, handleAddLead, handleActionClick,
        handleActionClose, handleStatusUpdate, openStatusUpdateDialog,
        with_selectedLead;
      cbn [selectedFile selectedLead selectedStatus newLead];
      try (destruct am; [|discriminate Hen];
           destruct (Hs eq_refl) as [l ->]);
      repeat match goal with
             | |- context [match ?x with _ => _ end] => destruct x
             end;
      (split; [cbn; first [exact Hs
                          | intros Hm; first [discriminate Hm | eauto]]
              | no_uncaught]).
  - destruct (bool_decide (c ∈ inflight s)); [|split; [exact Hs|no_uncaught]].
    destruct r as [response|e]; destruct c; cbn;
      try destruct (JS.truthy (Api.call_successful response));
      (split; [exact Hs|no_uncaught]).
  - destruct (bool_decide (i ∈ timers s)); (split; [exact Hs|no_uncaught]).
Qed.

End LeadsMenu.

Module LeadsLocks.
Import Fx Leads.

Lemma filter_none {A} (f : A -> bool) (l : list A) :
  (forall x, In x l -> f x = false) -> List.filter f l = [].
Proof.
  induction l as [|x l IH]; intros H; [reflexivity|]. cbn.
  rewrite (H x (or_introl eq_refl)). apply IH. intros y Hy. apply H. now right.
Qed.

Lemma idle_in_flight (m : mutation) (s : state) :
  isLoading m s = false -> Inv.in_flight m s = 0%nat.
Proof.
  unfold isLoading, Inv.in_flight. intros H.
  rewrite filter_none; [reflexivity|].
  intros c Hc. destruct (bool_decide (mutation_of c = m)) eqn:E; [|reflexivity].
  assert (Hex : existsb (fun c => bool_decide (mutation_of c = m)) (inflight s)
                = true) by (apply existsb_exists; eauto).
  congruence.
Qed.

Lemma filter_remove_first {A} `{EqDecision A} (f : A -> bool) (x : A) (l : list A) :
  (List.length (List.filter f (remove_first x l))
   <= List.length (List.filter f l))%nat.
Proof.
  induction l as [|y l IH]; [reflexivity|]. cbn [remove_first].
  destruct (decide (x = y)); cbn [List.filter].
  - destruct (f y); cbn; lia.
  - destruct (f y); cbn; lia.
Qed.

(** An enabled gesture invokes at most one mutation, and only one that
    is idle. *)
Lemma calls_of_action_idle (s : state) (a : action) :
  enabled s a = true ->
  calls_of_action s a = []
  \/ exists c, calls_of_action s a = [c]
               /\ isLoading (mutation_of c) s = false.
Proof.
  unfold enabled. intros Hen. apply andb_prop in Hen as [_ Hen].
  apply negb_true_iff in Hen.
  destruct a; cbn [calls_of_action]; try (now left);
    cbn [disabled] in Hen; unfold selected_call;
    try (apply orb_false_elim in Hen as [Hen Hen']);
    repeat match goal with
           | |- context [match ?x with _ => _ end] => destruct x
           end;
    try (now left); right; eexists; (split; [reflexivity|assumption]).
Qed.

Lemma step_in_flight (m : mutation) (s : state) (ev : event) :
  m <> markConfirmedMutation ->
  (Inv.in_flight m s <= 1)%nat ->
  (Inv.in_flight m (fst (step s ev)) <= 1)%nat.
Proof.
  intros Hm Hs. unfold Inv.in_flight in *. rewrite LeadsMore.step_inflight.
  assert (Hconf : forall (L : list call),
             (forall c, In c L -> exists i, c = MarkConfirmed i) ->
             List.filter (fun c => bool_decide (mutation_of c = m)) (rev L) = []).
  { intros L HL. apply filter_none. intros c Hc. apply in_rev in Hc.
    destruct (HL c Hc) as [i ->]. cbn. apply bool_decide_eq_false_2.
    congruence. }
  destruct ev as [|data|a|c r|i]; cbn [calls_issued].
  - exact Hs.
  - case_bool_decide; [exact Hs|].
    rewrite List.filter_app, Hconf; [exact Hs|].
    intros c Hc. apply in_map_iff in Hc. destruct Hc as (l & <- & _).
    now eexists.
  - destruct (enabled s a) eqn:Hen; [|exact Hs].
    destruct (calls_of_action_idle s a Hen) as [->|(c & -> & Hidle)];
      [exact Hs|].
    cbn [rev app List.filter].
    destruct (bool_decide (mutation_of c = m)) eqn:E; [|exact Hs].
    apply bool_decide_eq_true in E. subst m.
    apply idle_in_flight in Hidle. unfold Inv.in_flight in Hidle.
    cbn [List.length]. lia.
  - destruct (bool_decide (c ∈ inflight s)); [|exact Hs].
    etransitivity; [apply filter_remove_first|exact Hs].
  - destruct (bool_decide (i ∈ timers s)); [|exact Hs].
    rewrite List.filter_app, Hconf; [exact Hs|].
    intros c [<-|[]]. now eexists.
Qed.

End LeadsLocks.

(** X5: in every run of the Leads page from its initial state, no
    handler throws: the row menu is only ever open on a selected lead,
    so the [selectedLead.id] of the menu items is always defined. *)
Theorem leads_handlers_never_throw (evs : list Leads.event) :
  Inv.menu_has_lead (fst (Leads.run Leads.initial evs))
  /\ forall ev what,
       ~ In (ev, Fx.Uncaught what) (snd (Leads.run Leads.initial evs)).
Proof.
  assert (H : forall s, Inv.menu_has_lead s ->
              Inv.menu_has_lead (fst (Leads.run s evs))
              /\ forall ev what,
                   ~ In (ev, Fx.Uncaught what) (snd (Leads.run s evs))).
  { induction evs as [|ev0 evs IH]; intros s Hs.
    - split; [exact Hs|intros ev what []].
    - rewrite LeadsMore.leads_run_cons. cbn [fst snd].
      destruct (LeadsMenu.step_keeps_menu s ev0 Hs) as [Hs1 Hno].
      destruct (IH _ Hs1) as [IH1 IH2]. split; [exact IH1|].
      intros ev what Hin. apply in_app_iff in Hin. destruct Hin as [Hin|Hin].
      + apply in_map_iff in Hin. destruct Hin as (eff & [= <- ->] & Heff).
        exact (Hno what Heff).
      + exact (IH2 ev what Hin). }
  apply H. intros Hopen. discriminate Hopen.
Qed.

(** X6: the operator cannot double a request: in every run of the Leads
    page from its initial state, at most one upload, one add-lead, one
    make-call, one status update, one retry-call and one retry-entry
    request is in flight at any time (the button or menu item is
    disabled until the previous one settles). *)
Theorem operator_requests_are_not_doubled
    (evs : list Leads.event) (m : Leads.mutation) :
  m <> Leads.markConfirmedMutation ->
  (Inv.in_flight m (fst (Leads.run Leads.initial evs)) <= 1)%nat.
Proof.
  intros Hm.
  assert (H : forall s, (Inv.in_flight m s <= 1)%nat ->
              (Inv.in_flight m (fst (Leads.run s evs)) <= 1)%nat).
  { induction evs as [|ev0 evs IH]; intros s Hs; [exact Hs|].
    rewrite LeadsMore.leads_run_cons. cbn [fst].
    apply IH, LeadsLocks.step_in_flight; assumption. }
  apply H. cbn. lia.
Qed.

(** Two clicks on Retry Call in a row: one request in flight. *)
Lemma operator_requests_are_not_doubled_witness :
  Leads.retryCallMutation <> Leads.markConfirmedMutation
  /\ (Inv.in_flight Leads.retryCallMutation
        (fst (Leads.run Leads.initial
                (Sample.open_menu_on Sample.pending_lead
                 ++ [ Leads.User Leads.ClickRetryCall;
                      Leads.User (Leads.ClickRowActions Sample.pending_lead);
                      Leads.User Leads.ClickRetryCall ])%list)) <= 1)%nat.
Proof.
  assert (H : Leads.retryCallMutation <> Leads.markConfirmedMutation)
    by discriminate.
  split; [exact H|].
  exact (operator_requests_are_not_doubled _ Leads.retryCallMutation H).
Defined.

(** X7: the automatic confirmation is not covered by that lock: when an
    answer of the leads poll that differs from the list the page holds
    lists a lead as [calling] with a completed, successful call, the
    page posts a confirmation for it even if one for the same lead is
    still in flight, so two are in flight at once. *)
Theorem automatic_confirmation_can_double
    (s : Leads.state) (data : list Leads.lead) (l : Leads.lead) :
  Leads.leads s <> Some data ->
  In l data ->
  Leads.needsUpdate l = true ->
  JS.truthy (Leads.call_successful l) = true ->
  In (Leads.MarkConfirmed (Leads.id l)) (Leads.inflight s) ->
  (2 <= List.count_occ Leads.call_eq_dec
          (Leads.inflight (fst (Leads.step s (Leads.LeadsData data))))
          (Leads.MarkConfirmed (Leads.id l)))%nat.
Proof.
  intros Hnew Hl Hneeds Hok Hin.
  rewrite LeadsMore.step_inflight. cbn [Leads.calls_issued].
  rewrite (bool_decide_eq_false_2 _ Hnew), count_occ_app.
  assert (H1 : In (Leads.MarkConfirmed (Leads.id l))
                  (rev (map (fun l0 => Leads.MarkConfirmed (Leads.id l0))
                          (List.filter
                             (fun l0 => Leads.needsUpdate l0
                                        && JS.truthy (Leads.call_successful l0))
                             data)))).
  { apply in_rev. rewrite rev_involutive. apply in_map_iff. exists l.
    split; [reflexivity|]. apply filter_In. split; [exact Hl|].
    now rewrite Hneeds, Hok. }
  apply (count_occ_In Leads.call_eq_dec) in H1.
  apply (count_occ_In Leads.call_eq_dec) in Hin. lia.
Qed.

(** Lead 7 is listed as calling in two successive answers, the second
    of which has one more lead. *)
Lemma automatic_confirmation_can_double_witness :
  Leads.leads (fst (Leads.step Leads.initial
                      (Leads.LeadsData [Sample.completed_call])))
  <> Some [Sample.completed_call; Sample.pending_lead]
  /\ (2 <= List.count_occ Leads.call_eq_dec
          (Leads.inflight
             (fst (Leads.step
                     (fst (Leads.step Leads.initial
                             (Leads.LeadsData [Sample.completed_call])))
                     (Leads.LeadsData
                        [Sample.completed_call; Sample.pending_lead]))))
          (Leads.MarkConfirmed (JS.Int 7)))%nat.
Proof.
  assert (H : Leads.leads (fst (Leads.step Leads.initial
                                  (Leads.LeadsData [Sample.completed_call])))
              <> Some [Sample.completed_call; Sample.pending_lead])
    by discriminate.
  split; [exact H|].
  exact (automatic_confirmation_can_double
           (fst (Leads.step Leads.initial
                   (Leads.LeadsData [Sample.completed_call])))
           [Sample.completed_call; Sample.pending_lead] Sample.completed_call
           H (or_introl eq_refl) eq_refl eq_refl (or_introl eq_refl)).
Defined.

Module LeadsFlows.
Import Fx Leads.

Lemma option_not_blank (v : string) :
  In v status_options -> (v =? "")%string = false.
Proof.
  unfold status_options. cbn.
  intros H; repeat (destruct H as [<-|H]; [reflexivity|]); destruct H.
Qed.

End LeadsFlows.

(** X8: Update Status from the row menu of a lead opens the dialog with
    the lead's current status preselected, closes the menu and keeps the
    lead; Update then posts [/leads/{id}/status] with the status chosen
    in the dialog, or with the lead's current status when the operator
    chose nothing (and nothing at all when that status is empty). *)
Theorem status_dialog_flow (s : Leads.state) (l : Leads.lead) (v : string) :
  Leads.actionMenuAnchor s = true ->
  Leads.selectedLead s = Some l ->
  Leads.isLoading Leads.updateStatusMutation s = false ->
  In v Leads.status_options ->
  let s1 := fst (Leads.step s (Leads.User Leads.ClickUpdateStatus)) in
  let s2 := fst (Leads.step s1 (Leads.User (Leads.ChooseStatus v))) in
  let path := "/leads/" ++ JS.render (Leads.id l) ++ "/status" in
  (Leads.statusUpdateDialogOpen s1 = true
   /\ Leads.actionMenuAnchor s1 = false
   /\ Leads.selectedLead s1 = Some l
   /\ Leads.selectedStatus s1 = Leads.status l)
  /\ Fx.requests (snd (Leads.step s2 (Leads.User Leads.ClickUpdate)))
     = [Api.post path (Api.JsonStatus v)]
  /\ Fx.requests (snd (Leads.step s1 (Leads.User Leads.ClickUpdate)))
     = if (Leads.status l =? "")%string then []
       else [Api.post path (Api.JsonStatus (Leads.status l))].
Proof.
  intros Hmenu Hsel Hidle Hv. cbn zeta.
  pose proof (LeadsFlows.option_not_blank v Hv) as Hnb.
  apply list_elem_of_In in Hv.
  assert (E1 : fst (Leads.step s (Leads.User Leads.ClickUpdateStatus))
               = Leads.setActionMenuAnchor false
                   (Leads.setStatusUpdateDialogOpen true
                      (Leads.setSelectedStatus (Leads.status l) s))).
  { cbn [Leads.step]. unfold Leads.enabled. cbn [Leads.visible Leads.disabled].
    rewrite Hmenu. cbn [andb negb Leads.on_action].
    unfold Leads.openStatusUpdateDialog. rewrite Hsel. reflexivity. }
  rewrite E1.
  set (s1 := Leads.setActionMenuAnchor false
               (Leads.setStatusUpdateDialogOpen true
                  (Leads.setSelectedStatus (Leads.status l) s))).
  assert (E2 : fst (Leads.step s1 (Leads.User (Leads.ChooseStatus v)))
               = Leads.setSelectedStatus v s1).
  { cbn [Leads.step]. unfold Leads.enabled. cbn [Leads.visible Leads.disabled].
    rewrite (bool_decide_eq_true_2 _ Hv). reflexivity. }
  rewrite E2, !LeadsFacts.step_requests. cbn [Leads.calls_issued].
  unfold Leads.enabled, Leads.isLoading in *.
  cbn [Leads.visible Leads.disabled Leads.calls_of_action].
  unfold Leads.selected_call, Leads.isLoading. subst s1.
  cbn [Leads.statusUpdateDialogOpen Leads.selectedStatus Leads.selectedLead
       Leads.inflight Leads.actionMenuAnchor Leads.setSelectedStatus
       Leads.setActionMenuAnchor Leads.setStatusUpdateDialogOpen].
  rewrite Hidle, Hsel, Hnb. cbn [andb negb orb map Leads.mutationFn].
  repeat split.
  destruct (Leads.status l =? "")%string; reflexivity.
Qed.

(** Lead 9 is pending; the operator picks "confirmed". *)
Lemma status_dialog_flow_witness :
  In "confirmed" Leads.status_options
  /\ Fx.requests
       (snd (Leads.step
               (fst (Leads.step
                       (fst (Leads.step (Sample.menu_on Sample.pending_lead)
                               (Leads.User Leads.ClickUpdateStatus)))
                       (Leads.User (Leads.ChooseStatus "confirmed"))))
               (Leads.User Leads.ClickUpdate)))
     = [Api.post "/leads/9/status" (Api.JsonStatus "confirmed")].
Proof.
  assert (H : In "confirmed" Leads.status_options)
    by (right; right; left; reflexivity).
  split; [exact H|].
  exact (proj1 (proj2 (status_dialog_flow (Sample.menu_on Sample.pending_lead)
                         Sample.pending_lead "confirmed"
                         eq_refl eq_refl eq_refl H))).
Defined.

Module LeadsDialogs.
Import Fx Leads.

Lemma remove_first_head {A} `{EqDecision A} (x : A) (l : list A) :
  remove_first x (x :: l) = l.
Proof. cbn. destruct (decide (x = x)); congruence. Qed.

(** Settling the invocation that was issued last. *)
Lemma settle_head (s : state) (c : call) (r : Api.result) :
  step (setInflight (c :: inflight s) s) (Settled c r)
  = match r with
    | Api.Fulfilled response => onSuccess c response s
    | Api.Rejected error => onError c error s
    end.
Proof.
  assert (Hpair : forall p : state * list effect,
             (let '(s2, e2) := p in (s2, ([] ++ e2)%list)) = p)
    by (intros [? ?]; reflexivity).
  cbn [step]. rewrite bool_decide_eq_true_2 by (cbn; apply elem_of_cons; now left).
  unfold settle, andThen. cbn [modify inflight setInflight].
  rewrite remove_first_head.
  destruct s; destruct r;
    cbv beta iota delta
      [setInflight inflight selectedFile uploadDialogOpen addDialogOpen
       statusUpdateDialogOpen selectedStatus newLead actionMenuAnchor
       selectedLead leads timers];
    apply Hpair.
Qed.

End LeadsDialogs.

(** X9: CSV import.  With the upload dialog open and no upload in
    flight, choosing a file and clicking Upload posts the file to
    [/leads/import-csv/] and disables the button; when the request
    succeeds the dialog closes and the file is forgotten, when it fails
    the dialog stays open with the file still selected and the button
    enabled again, and an error toast is shown. *)
Theorem upload_flow (s : Leads.state) (file : string) (r : Api.result) :
  Leads.uploadDialogOpen s = true ->
  Leads.isLoading Leads.uploadMutation s = false ->
  let s1 := fst (Leads.step s (Leads.User (Leads.ChooseFile (Some file)))) in
  let s2 := fst (Leads.step s1 (Leads.User Leads.ClickUpload)) in
  let s3 := fst (Leads.step s2 (Leads.Settled (Leads.Upload file) r)) in
  Fx.requests (snd (Leads.step s1 (Leads.User Leads.ClickUpload)))
  = [Api.post "/leads/import-csv/" (Api.Multipart file)]
  /\ Leads.enabled s2 Leads.ClickUpload = false
  /\ match r with
     | Api.Fulfilled response =>
         Leads.uploadDialogOpen s3 = false /\ Leads.selectedFile s3 = None
         /\ snd (Leads.step s2 (Leads.Settled (Leads.Upload file) r))
            = [ Fx.Toast Fx.Success (Api.message response);
                Fx.InvalidateQueries "leads" ]
     | Api.Rejected e =>
         Leads.uploadDialogOpen s3 = true
         /\ Leads.selectedFile s3 = Some file
         /\ Leads.enabled s3 Leads.ClickUpload = true
         /\ snd (Leads.step s2 (Leads.Settled (Leads.Upload file) r))
            = [Fx.Toast Fx.Error ("Upload failed: " ++ Api.error_text e)]
     end.
Proof.
  intros Hopen Hidle. cbn zeta.
  assert (E1 : fst (Leads.step s (Leads.User (Leads.ChooseFile (Some file))))
               = Leads.setSelectedFile (Some file) s).
  { cbn [Leads.step]. unfold Leads.enabled. cbn [Leads.visible Leads.disabled].
    rewrite Hopen. reflexivity. }
  rewrite E1. set (s1 := Leads.setSelectedFile (Some file) s).
  assert (Hen : Leads.enabled s1 Leads.ClickUpload = true).
  { unfold Leads.enabled, Leads.isLoading in *.
    cbn [Leads.visible Leads.disabled]. subst s1. cbn. now rewrite Hopen, Hidle. }
  assert (E2 : fst (Leads.step s1 (Leads.User Leads.ClickUpload))
               = Leads.setInflight (Leads.Upload file :: Leads.inflight s1) s1).
  { cbn [Leads.step]. rewrite Hen. reflexivity. }
  rewrite E2, LeadsDialogs.settle_head, LeadsFacts.step_requests.
  cbn [Leads.calls_issued]. rewrite Hen.
  split; [reflexivity|]. split.
  { unfold Leads.enabled. subst s1. cbn. now rewrite Hopen. }
  destruct r as [response|e].
  - repeat split.
  - unfold Leads.enabled, Leads.isLoading in *. subst s1. cbn.
    rewrite Hopen, Hidle. repeat split.
Qed.

(** The import of leads.csv is rejected with a server detail. *)
Lemma upload_flow_witness :
  Leads.uploadDialogOpen
    (fst (Leads.step Leads.initial (Leads.User Leads.ClickImportCsv))) = true
  /\ Fx.requests
       (snd (Leads.step
               (fst (Leads.step
                       (fst (Leads.step Leads.initial
                               (Leads.User Leads.ClickImportCsv)))
                       (Leads.User (Leads.ChooseFile (Some "leads.csv")))))
               (Leads.User Leads.ClickUpload)))
     = [Api.post "/leads/import-csv/" (Api.Multipart "leads.csv")].
Proof.
  split; [reflexivity|].
  exact (proj1 (upload_flow
                  (fst (Leads.step Leads.initial
                          (Leads.User Leads.ClickImportCsv)))
                  "leads.csv" (Api.Rejected Sample.not_found)
                  eq_refl eq_refl)).
Defined.

(** X10: Add Lead.  With the dialog open and no add in flight, an edit
    of a form field changes that field only, and Add Lead posts the form
    to [/leads/] exactly as typed: no field is validated, so a blank
    form is posted too.  When the request succeeds the form is blanked
    and the dialog closes; when it fails the typed values stay. *)
Theorem add_lead_flow
    (s : Leads.state) (field value : string)
    (response : Api.response) (e : Api.error) :
  Leads.addDialogOpen s = true ->
  is_Some (Leads.emptyLead !! field) ->
  Leads.isLoading Leads.addLeadMutation s = false ->
  let s1 := fst (Leads.step s (Leads.User (Leads.EditNewLead field value))) in
  let s2 := fst (Leads.step s1 (Leads.User Leads.ClickAddLeadSubmit)) in
  let add := Leads.AddLead (Leads.newLead s1) in
  Leads.newLead s1 = <[field := value]> (Leads.newLead s)
  /\ Fx.requests (snd (Leads.step s1 (Leads.User Leads.ClickAddLeadSubmit)))
     = [Api.post "/leads/" (Api.JsonForm (Leads.newLead s1))]
  /\ Fx.requests (snd (Leads.step s (Leads.User Leads.ClickAddLeadSubmit)))
     = [Api.post "/leads/" (Api.JsonForm (Leads.newLead s))]
  /\ Leads.newLead
       (fst (Leads.step s2 (Leads.Settled add (Api.Fulfilled response))))
     = Leads.emptyLead
  /\ Leads.addDialogOpen
       (fst (Leads.step s2 (Leads.Settled add (Api.Fulfilled response))))
     = false
  /\ Leads.newLead (fst (Leads.step s2 (Leads.Settled add (Api.Rejected e))))
     = Leads.newLead s1
  /\ Leads.addDialogOpen
       (fst (Leads.step s2 (Leads.Settled add (Api.Rejected e)))) = true.
Proof.
  intros Hopen Hfield Hidle. cbn zeta.
  assert (E1 : fst (Leads.step s (Leads.User (Leads.EditNewLead field value)))
               = Leads.setNewLead (<[field := value]> (Leads.newLead s)) s).
  { cbn [Leads.step]. unfold Leads.enabled. cbn [Leads.visible Leads.disabled].
    rewrite Hopen, (bool_decide_eq_true_2 _ Hfield). reflexivity. }
  rewrite E1.
  set (s1 := Leads.setNewLead (<[field := value]> (Leads.newLead s)) s).
  assert (Hen0 : Leads.enabled s Leads.ClickAddLeadSubmit = true).
  { unfold Leads.enabled. cbn [Leads.visible Leads.disabled].
    now rewrite Hopen, Hidle. }
  assert (Hen : Leads.enabled s1 Leads.ClickAddLeadSubmit = true)
    by exact Hen0.
  assert (E2 : fst (Leads.step s1 (Leads.User Leads.ClickAddLeadSubmit))
               = Leads.setInflight
                   (Leads.AddLead (Leads.newLead s1) :: Leads.inflight s1) s1).
  { cbn [Leads.step]. rewrite Hen. reflexivity. }
  rewrite E2, !LeadsDialogs.settle_head, !LeadsFacts.step_requests.
  cbn [Leads.calls_issued]. rewrite Hen, Hen0.
  repeat split. exact Hopen.
Qed.

(** The operator types a first name into the blank form and submits. *)
Lemma add_lead_flow_witness :
  Leads.addDialogOpen
    (fst (Leads.step Leads.initial (Leads.User Leads.ClickAddLead))) = true
  /\ is_Some (Leads.emptyLead !! "first_name")
  /\ Leads.newLead
       (fst (Leads.step
               (fst (Leads.step Leads.initial (Leads.User Leads.ClickAddLead)))
               (Leads.User (Leads.EditNewLead "first_name" "Jane"))))
     = <["first_name" := "Jane"]> Leads.emptyLead.
Proof.
  assert (H : is_Some (Leads.emptyLead !! "first_name")) by (now eexists).
  split; [reflexivity|]. split; [exact H|].
  exact (proj1 (add_lead_flow
                  (fst (Leads.step Leads.initial (Leads.User Leads.ClickAddLead)))
                  "first_name" "Jane"
                  {| Api.message := ""; Api.call_successful := JS.Null |}
                  Sample.not_found eq_refl H eq_refl)).
Defined.

(** X11: on the earlier revision of the Leads page nothing is posted
    without a click: every request of a step is the refetch of [/leads/]
    or the mutation of the button or menu item just clicked (upload, add
    lead, retry call, retry entry, mark confirmed); polling answers,
    settled requests and the page itself never post, and no make-call or
    status request exists. *)
Theorem early_revision_posts_only_on_clicks
    (s : Leads.state) (ev : LeadsV1.event) (r : Api.request) :
  In r (Fx.requests (snd (LeadsV1.step s ev))) ->
  (ev = LeadsV1.RefetchTick /\ r = Api.get "/leads/")
  \/ exists c, r = Leads.mutationFn c /\ Inv.v1_click_of c ev.
Proof.
  rewrite Requests.leadsV1_requests.
  destruct ev as [|data|a|c0 res]; cbn [In].
  - intros [<-|[]]. left. split; reflexivity.
  - intros [].
  - intros H. right. apply in_map_iff in H. destruct H as (c & <- & Hc).
    exists c. split; [reflexivity|].
    apply Requests.calls_issued_origin in Hc.
    destruct c; cbn [Inv.v1_click_of];
      try (destruct Hc as [Hc|[[d Hc]|[i Hc]]]; [|discriminate Hc..]);
      destruct a; try discriminate Hc; reflexivity.
  - intros [].
Qed.

(** Retry Data Entry on lead 8 in the earlier revision. *)
Lemma early_revision_posts_only_on_clicks_witness :
  In (Api.post "/leads/8/retry-entry" Api.NoBody)
     (Fx.requests
        (snd (LeadsV1.step (Sample.menu_on Sample.entered_lead)
                (LeadsV1.User LeadsV1.ClickRetryEntry))))
  /\ ((LeadsV1.User LeadsV1.ClickRetryEntry = LeadsV1.RefetchTick
       /\ Api.post "/leads/8/retry-entry" Api.NoBody = Api.get "/leads/")
      \/ exists c,
           Api.post "/leads/8/retry-entry" Api.NoBody = Leads.mutationFn c
           /\ Inv.v1_click_of c (LeadsV1.User LeadsV1.ClickRetryEntry)).
Proof.
  assert (H : In (Api.post "/leads/8/retry-entry" Api.NoBody)
                 (Fx.requests
                    (snd (LeadsV1.step (Sample.menu_on Sample.entered_lead)
                            (LeadsV1.User LeadsV1.ClickRetryEntry)))))
    by (left; reflexivity).
  split; [exact H|].
  exact (early_revision_posts_only_on_clicks _ _ _ H).
Defined.

(** X12: a mutation of the Leads page (either revision) or of the
    layout that succeeds invalidates its query exactly once, so the
    table or the agent status is refetched; one that fails invalidates
    nothing. *)
Theorem success_invalidates_the_query (r : Api.result) :
  (forall (s : Leads.state) (c : Leads.call),
     In c (Leads.inflight s) ->
     Inv.invalidated (snd (Leads.step s (Leads.Settled c r)))
     = match r with Api.Fulfilled _ => ["leads"] | Api.Rejected _ => [] end
     /\ (match c with
         | Leads.MakeCall _ | Leads.UpdateStatus _ _ => True
         | _ => Inv.invalidated (snd (LeadsV1.step s (LeadsV1.Settled c r)))
                = match r with
                  | Api.Fulfilled _ => ["leads"]
                  | Api.Rejected _ => []
                  end
         end))
  /\ (forall (s : Layout.state) (c : Layout.call),
        In c (Layout.inflight s) ->
        Inv.invalidated (snd (Layout.step s (Layout.Settled c r)))
        = match r with
          | Api.Fulfilled _ => ["agentStatus"]
          | Api.Rejected _ => []
          end).
Proof.
  split.
  - intros s c Hc. apply list_elem_of_In in Hc.
    cbn [Leads.step LeadsV1.step]. rewrite (bool_decide_eq_true_2 _ Hc).
    destruct r as [response|e]; destruct c; cbn;
      try destruct (JS.truthy (Api.call_successful response));
      split; reflexivity || exact I.
  - intros s c Hc. apply list_elem_of_In in Hc.
    cbn [Layout.step]. rewrite (bool_decide_eq_true_2 _ Hc).
    destruct r; reflexivity.
Qed.

(** The retry-call in flight succeeds: the leads are refetched. *)
Lemma success_invalidates_the_query_witness :
  In (Leads.RetryCall (JS.Int 7)) (Leads.inflight Sample.retrying)
  /\ Inv.invalidated
       (snd (Leads.step Sample.retrying
               (Leads.Settled (Leads.RetryCall (JS.Int 7))
                              Sample.call_succeeded)))
     = ["leads"].
Proof.
  assert (H : In (Leads.RetryCall (JS.Int 7)) (Leads.inflight Sample.retrying))
    by (left; reflexivity).
  split; [exact H|].
  exact (proj1 (proj1 (success_invalidates_the_query Sample.call_succeeded)
                  Sample.retrying (Leads.RetryCall (JS.Int 7)) H)).
Defined.

(** *** Layout: the agent toggle *)

Module LayoutMore.
Import Fx Layout.

Lemma layout_run_cons (s : state) (ev : event) (evs : list event) :
  fst (run s (ev :: evs)) = fst (run (fst (step s ev)) evs).
Proof.
  cbn [run]. destruct (step s ev) as [s1 effs]. cbn [fst].
  destruct (run s1 evs). reflexivity.
Qed.

Lemma step_one_in_flight (s : state) (ev : event) :
  (List.length (inflight s) <= 1)%nat ->
  (List.length (inflight (fst (step s ev))) <= 1)%nat.
Proof.
  intros Hs. destruct ev as [|data|a|c r]; cbn [step].
  - exact Hs.
  - exact Hs.
  - destruct (enabled s a) eqn:Hen; [|exact Hs].
    destruct a; cbn; try exact Hs.
    unfold enabled, isLoading in Hen.
    destruct (inflight s) as [|c0 l] eqn:E.
    + unfold handleAgentToggle, mutate.
      destruct (agents_running_now s); cbn; rewrite E; cbn; lia.
    + exfalso. apply negb_true_iff, orb_false_elim in Hen as [H1 H2].
      apply bool_decide_eq_false in H1, H2.
      destruct c0; [apply H1|apply H2]; apply elem_of_cons; now left.
  - destruct (bool_decide (c ∈ inflight s)); [|exact Hs]. cbn.
    destruct (inflight s) as [|c0 [|c1 l]]; cbn in *; try lia.
    destruct (decide (c = c0)); cbn; lia.
Qed.

End LayoutMore.

(** X13: in every run of the layout from its initial state at most one
    agent start or stop request is in flight: the toggle is disabled
    until it settles, so the operator cannot start and stop the agents
    at once. *)
Theorem agent_requests_never_overlap (evs : list Layout.event) :
  (List.length (Layout.inflight (fst (Layout.run Layout.initial evs))) <= 1)%nat.
Proof.
  assert (H : forall s, (List.length (Layout.inflight s) <= 1)%nat ->
              (List.length (Layout.inflight (fst (Layout.run s evs))) <= 1)%nat).
  { induction evs as [|ev evs IH]; intros s Hs; [exact Hs|].
    rewrite LayoutMore.layout_run_cons.
    apply IH, LayoutMore.step_one_in_flight, Hs. }
  apply H. cbn. lia.
Qed.

(** *** Cells of the log tables and of the status chips *)

Module CellFacts.
Import Text TextFacts.

Lemma length_append (a b : string) :
  String.length (a ++ b) = (String.length a + String.length b)%nat.
Proof.
  induction a as [|x a IH]; [reflexivity|].
  rewrite append_cons. cbn [String.length]. now rewrite IH.
Qed.

(** The first [n] characters of a string that has at least [n]. *)
Lemma substring_head (n : nat) (s : string) :
  (n <= String.length s)%nat ->
  exists tail, s = String.substring 0 n s ++ tail
               /\ String.length (String.substring 0 n s) = n.
Proof.
  revert s. induction n as [|n IH]; intros s Hn.
  - exists s. destruct s; split; reflexivity.
  - destruct s as [|x s]; [cbn in Hn; lia|].
    destruct (IH s) as (tail & Hs & Hlen); [cbn in Hn; lia|].
    exists tail. cbn [String.substring String.length].
    rewrite append_cons, <- Hs, Hlen. split; reflexivity.
Qed.

Lemma upper_char_underscore (x : ascii) :
  Ascii.eqb (JS.upper_char x) "_" = Ascii.eqb x "_".
Proof. destruct x as [[] [] [] [] [] [] [] []]; reflexivity. Qed.

Lemma count_toUpperCase (s : string) :
  JS.count_char "_" (JS.toUpperCase s) = JS.count_char "_" s.
Proof.
  induction s as [|x s IH]; [reflexivity|].
  cbn [JS.toUpperCase JS.count_char].
  now rewrite upper_char_underscore, IH.
Qed.

Lemma count_replace_first (s : string) :
  JS.count_char "_" (JS.replace_first "_" " " s)
  = Nat.pred (JS.count_char "_" s).
Proof.
  induction s as [|x s IH]; [reflexivity|].
  cbn [JS.replace_first JS.count_char].
  destruct (Ascii.eqb x "_") eqn:E; cbn [JS.count_char].
  - reflexivity.
  - rewrite E, IH. reflexivity.
Qed.

Lemma length_toUpperCase (s : string) :
  String.length (JS.toUpperCase s) = String.length s.
Proof.
  induction s as [|x s IH]; [reflexivity|]. cbn. now rewrite IH.
Qed.

(** [toUpperCase] maps each letter to its capital, in place. *)
Lemma upper_char_capital (c : ascii) : JS.upper_char c = Inv.capital c.
Proof. destruct c as [[] [] [] [] [] [] [] []]; vm_compute; reflexivity. Qed.

Lemma get_toUpperCase (i : nat) (s : string) :
  String.get i (JS.toUpperCase s) = Inv.capital <$> String.get i s.
Proof.
  revert i. induction s as [|x s IH]; intros i; [reflexivity|].
  cbn [JS.toUpperCase String.get]. destruct i as [|i].
  - cbn. now rewrite upper_char_capital.
  - apply IH.
Qed.

Lemma length_replace_first (c d : ascii) (s : string) :
  String.length (JS.replace_first c d s) = String.length s.
Proof.
  induction s as [|x s IH]; [reflexivity|]. cbn [JS.replace_first].
  destruct (Ascii.eqb x c); cbn; [reflexivity|now rewrite IH].
Qed.

End CellFacts.

(** X14: the Error Message cell of the data-entry log shows a message of
    at most 50 characters as it is, and a longer one as its first 50
    characters followed by three dots, so never more than 53
    characters; an absent or empty message shows nothing. *)
Theorem error_cell_truncates (v : string) :
  v <> "" ->
  exists shown,
    DataEntryLogs.error_cell (Some v) = Some shown
    /\ (String.length shown <= 53)%nat
    /\ ((String.length v <= 50)%nat -> shown = v)
    /\ ((50 < String.length v)%nat ->
        exists head tail,
          v = head ++ tail /\ String.length head = 50%nat
          /\ shown = head ++ "...")
    /\ DataEntryLogs.error_cell None = None
    /\ DataEntryLogs.error_cell (Some "") = None.
Proof.
  intros Hv. unfold DataEntryLogs.error_cell at 1.
  apply String.eqb_neq in Hv. rewrite Hv.
  destruct (50 <? String.length v)%nat eqn:E.
  - apply Nat.ltb_lt in E.
    destruct (CellFacts.substring_head 50 v) as (tail & Hs & Hlen); [lia|].
    eexists. split; [reflexivity|].
    split; [rewrite CellFacts.length_append, Hlen; cbn; lia|].
    split; [lia|]. split; [|split; reflexivity].
    intros _. exists (String.substring 0 50 v), tail. auto.
  - apply Nat.ltb_ge in E.
    eexists. split; [reflexivity|]. split; [lia|].
    split; [reflexivity|]. split; [lia|split; reflexivity].
Qed.

(** A 60-character message is cut. *)
Lemma error_cell_truncates_witness :
  "Timeout while waiting for the portal form to load, step 3/7." <> ""
  /\ exists shown,
       DataEntryLogs.error_cell
         (Some "Timeout while waiting for the portal form to load, step 3/7.")
       = Some shown
       /\ (String.length shown <= 53)%nat.
Proof.
  assert (H : "Timeout while waiting for the portal form to load, step 3/7."
              <> "") by discriminate.
  split; [exact H|].
  destruct (error_cell_truncates _ H) as (shown & Hs & Hlen & _).
  exists shown. split; [exact Hs|exact Hlen].
Defined.

(** X15: the Duration cell of the data-entry log shows 'N/A' when the
    start or the completion time is missing; otherwise, for two valid
    time stamps with the completion not before the start and at most
    2^53 ms after it, the whole seconds between them as minutes, a
    colon and two-digit seconds.  An attempt shorter than a second shows
    "0:00" (where the call-log formatter shows 'N/A' for 0 seconds). *)
Theorem entry_duration_spec (t : DataEntryLogs.time_arg) (start finish : Z) :
  Z.abs start <= DataEntryLogs.max_time ->
  Z.abs finish <= DataEntryLogs.max_time ->
  start <= finish ->
  finish - start <= JS.max_exact ->
  let d := (finish - start) / 1000 in
  DataEntryLogs.formatDuration DataEntryLogs.NoTime t = "N/A"
  /\ DataEntryLogs.formatDuration t DataEntryLogs.NoTime = "N/A"
  /\ DataEntryLogs.formatDuration
       (DataEntryLogs.At start) (DataEntryLogs.At finish)
     = JS.toString (d / 60) ++ ":" ++ CallLogs.two_digits (d mod 60)
  /\ (finish - start < 1000 ->
      DataEntryLogs.formatDuration
        (DataEntryLogs.At start) (DataEntryLogs.At finish) = "0:00").
Proof.
  intros _ _ Hle _. cbn zeta.
  assert (Hd : 0 <= (finish - start) / 1000) by (apply Z.div_pos; lia).
  assert (Hfmt : DataEntryLogs.formatDuration
                   (DataEntryLogs.At start) (DataEntryLogs.At finish)
                 = JS.toString ((finish - start) / 1000 / 60) ++ ":"
                   ++ CallLogs.two_digits ((finish - start) / 1000 mod 60)).
  { unfold DataEntryLogs.formatDuration.
    rewrite Z.rem_mod_nonneg by lia.
    rewrite pad_two_digits; [reflexivity|].
    pose proof (Z.mod_pos_bound ((finish - start) / 1000) 60). lia. }
  split; [reflexivity|]. split; [now destruct t|]. split; [exact Hfmt|].
  intros Hshort. rewrite Hfmt.
  rewrite (Z.div_small (finish - start) 1000) by lia. reflexivity.
Qed.

(** An attempt of 83.5 seconds. *)
Lemma entry_duration_spec_witness :
  (Z.abs 1000 <= DataEntryLogs.max_time
   /\ Z.abs 84500 <= DataEntryLogs.max_time
   /\ 1000 <= 84500 /\ 84500 - 1000 <= JS.max_exact)
  /\ DataEntryLogs.formatDuration
       (DataEntryLogs.At 1000) (DataEntryLogs.At 84500)
     = JS.toString ((84500 - 1000) / 1000 / 60) ++ ":"
       ++ CallLogs.two_digits ((84500 - 1000) / 1000 mod 60).
Proof.
  assert (H1 : Z.abs 1000 <= DataEntryLogs.max_time)
    by (vm_compute; discriminate).
  assert (H2 : Z.abs 84500 <= DataEntryLogs.max_time)
    by (vm_compute; discriminate).
  assert (H3 : 1000 <= 84500) by discriminate.
  assert (H4 : 84500 - 1000 <= JS.max_exact) by (vm_compute; discriminate).
  split; [repeat split; assumption|].
  exact (proj1 (proj2 (proj2 (entry_duration_spec DataEntryLogs.NoTime
                                1000 84500 H1 H2 H3 H4)))).
Defined.

(** X16: the Status chip of the earlier Leads revision upper-cases the
    status and turns only its first underscore into a space: for a
    status written in ASCII, the label is as long as the status and
    keeps all but one of its underscores, so a status with two
    underscores still shows one. *)
Theorem v1_status_label_keeps_later_underscores (value : string) :
  JS.is_ascii value = true ->
  String.length (LeadsV1.status_label value) = String.length value
  /\ JS.count_char "_" (LeadsV1.status_label value)
     = Nat.pred (JS.count_char "_" value)
  /\ LeadsV1.status_label "entry_in_progress" = "ENTRY IN_PROGRESS".
Proof.
  intros _. unfold LeadsV1.status_label. split; [|split; [|reflexivity]].
  - now rewrite CellFacts.length_toUpperCase, CellFacts.length_replace_first.
  - now rewrite CellFacts.count_toUpperCase, CellFacts.count_replace_first.
Qed.

(** The label of [entry_in_progress] keeps one underscore. *)
Lemma v1_status_label_keeps_later_underscores_witness :
  JS.is_ascii "entry_in_progress" = true
  /\ JS.count_char "_" (LeadsV1.status_label "entry_in_progress") = 1%nat.
Proof.
  split; [reflexivity|].
  exact (proj1 (proj2 (v1_status_label_keeps_later_underscores
                         "entry_in_progress" eq_refl))).
Defined.

(** X17: the Status chip of the call log is never blank: a missing or
    empty call status is shown as UNKNOWN, and a status written in ASCII
    is shown with each letter a to z replaced by its capital and every
    other character kept, so with its length unchanged. *)
Theorem call_status_label_is_never_blank (v : string) :
  JS.is_ascii v = true ->
  CallLogs.status_label None = "UNKNOWN"
  /\ CallLogs.status_label (Some "") = "UNKNOWN"
  /\ CallLogs.status_label (Some v) <> ""
  /\ (v <> "" ->
      String.length (CallLogs.status_label (Some v)) = String.length v
      /\ forall (i : nat) (c : ascii),
           String.get i v = Some c ->
           String.get i (CallLogs.status_label (Some v))
           = Some (Inv.capital c)).
Proof.
  intros _. split; [reflexivity|]. split; [reflexivity|]. split.
  - cbn. destruct (JS.toUpperCase v =? "")%string eqn:E; [discriminate|].
    now apply String.eqb_neq.
  - intros Hv. cbn.
    assert (E : (JS.toUpperCase v =? "")%string = false).
    { apply String.eqb_neq. intros H.
      apply (f_equal String.length) in H.
      rewrite CellFacts.length_toUpperCase in H.
      destruct v; [congruence|discriminate H]. }
    rewrite E. split; [apply CellFacts.length_toUpperCase|].
    intros i c Hc. now rewrite CellFacts.get_toUpperCase, Hc.
Qed.

(** The status [no-answer]: the hyphen stays, the letters are capitals. *)
Lemma call_status_label_is_never_blank_witness :
  JS.is_ascii "no-answer" = true
  /\ CallLogs.status_label (Some "no-answer") <> "".
Proof.
  split; [reflexivity|].
  exact (proj1 (proj2 (proj2 (call_status_label_is_never_blank
                                "no-answer" eq_refl)))).
Defined.

(** X18: the pie chart always finds a fill colour: the cell number
    [i] takes [COLORS[i % 8]], the eight colours are distinct, and the
    cell [i + 8] repeats the colour of cell [i] (with ten lead states,
    the ninth and tenth slices reuse the first two colours). *)
Theorem pie_colours_cycle (i : nat) :
  is_Some (Dashboard.cell_fill i)
  /\ Dashboard.cell_fill (i + 8) = Dashboard.cell_fill i
  /\ List.NoDup Dashboard.COLORS.
Proof.
  unfold Dashboard.cell_fill.
  change (List.length Dashboard.COLORS) with 8%nat.
  split; [|split].
  - assert (H : (i mod 8 < List.length Dashboard.COLORS)%nat)
      by (apply Nat.mod_upper_bound; discriminate).
    apply List.nth_error_Some in H.
    destruct (nth_error Dashboard.COLORS (i mod 8)); [now eexists|congruence].
  - replace (i + 8)%nat with (i + 1 * 8)%nat by lia.
    now rewrite Nat.Div0.mod_add.
  - unfold Dashboard.COLORS.
    repeat (apply List.NoDup_cons; [cbn; intuition discriminate|]).
    apply List.NoDup_nil.
Qed.

(** X19: the dashboard charts label a lead state as the Leads page does
    for the eight states its own label table lists; the two states it
    lacks, [no_answer] and [callback_requested], are shown by their raw
    key. *)
Theorem dashboard_labels_versus_leads_labels (state label : string) :
  In (state, label) Leads.statusLabels ->
  Dashboard.label state
  = if bool_decide (state ∈ ["no_answer"; "callback_requested"])
    then state else label.
Proof.
  unfold Leads.statusLabels. cbn [In].
  intros H.
  repeat (destruct H as [[= <- <-]|H]; [reflexivity|]). destruct H.
Qed.

(** The state no_answer has a label on the Leads page only. *)
Lemma dashboard_labels_versus_leads_labels_witness :
  In ("no_answer", "No Answer") Leads.statusLabels
  /\ Dashboard.label "no_answer" = "no_answer".
Proof.
  assert (H : In ("no_answer", "No Answer") Leads.statusLabels)
    by (do 8 right; left; reflexivity).
  split; [exact H|].
  exact (dashboard_labels_versus_leads_labels "no_answer" "No Answer" H).
Defined.
